(** * attrWidgets: live attribute widgets bound to a Maya scene

    A shallow embedding of [attrWidgets.py].  A widget (the "binding") caches
    the value of one plug [node.attribute] of the scene, shows it in one or
    two toolkit controls, writes user edits through to the scene and
    refreshes itself from the scene when the host reports the node dirty.

    What is embedded, and how:
    - Python values are [pyval]; Python floats are IEEE binary64 ([float]).
    - Every method is a computation in [M]: it threads the widget and the
      host session ([St]) and may raise; state changes made before a raise
      persist, as in Python.
    - The class hierarchy is the enumeration [WidgetClass]; a method that a
      subclass overrides is one definition that dispatches on the class, and
      a call of [super] is written out in place.
    - The host ([cmds], [om]) is the record [World]: the scene's plugs and
      nodes, the registered dirty-plug callbacks, the idle callbacks
      scheduled with [evalDeferred], and three observation logs
      ([getAttr_log], [setAttr_log], [valueChanged_count]).
    - Of the toolkit only what a control shows is kept.  Labels, layouts,
      ranges, steps, clamping and rounding are outside the model.  A signal
      whose listener is attached calls its slot synchronously when the shown
      value changes; the source's detach / set / re-attach idiom is a set
      that reaches no slot.
    - [splitPlugString], which the module calls without defining it, is a
      parameter of [connectToNode].

    The wheel-event subclasses of the toolkit's controls are not embedded. *)

From stdpp Require Import gmap strings list.
From Stdlib Require Import ZArith Ascii PrimFloat Floats.

Open Scope Z_scope.
Set Warnings "-register-all,-inexact-float".

(** ** Python values *)

Inductive pyval : Type :=
| VNone
| VBool (b : bool)
| VInt (z : Z)
| VFloat (f : float)
| VStr (s : string)
| VList (l : list pyval).

Fixpoint float_of_pos (p : positive) : float :=
  match p with
  | xH => 1%float
  | xO q => (2 * float_of_pos q)%float
  | xI q => (2 * float_of_pos q + 1)%float
  end.

(** [float(z)]; exact for |z| < 2^53. *)
Definition float_of_Z (z : Z) : float :=
  match z with
  | Z0 => 0%float
  | Zpos p => float_of_pos p
  | Zneg p => (- float_of_pos p)%float
  end.

(** [int(f)]: truncation towards zero; [None] for nan and the infinities. *)
Definition Z_of_float (f : float) : option Z :=
  match Prim2SF f with
  | S754_zero _ => Some 0
  | S754_finite s m e =>
      let a := match e with
               | Z0 => Zpos m
               | Zpos k => Zpos m * 2 ^ Zpos k
               | Zneg k => Zpos m / 2 ^ Zpos k
               end in
      Some (if s then - a else a)
  | _ => None
  end.

(** [bool(v)] *)
Definition truthy (v : pyval) : bool :=
  match v with
  | VNone => false
  | VBool b => b
  | VInt z => negb (z =? 0)
  | VFloat f => negb (PrimFloat.eqb f 0%float)
  | VStr s => negb (String.eqb s "")
  | VList l => match l with [] => false | _ => true end
  end.

(** The number a value stands for in arithmetic: [bool] is a subtype of
    [int]. *)
Inductive pynum : Type :=
| NInt (z : Z)
| NFloat (f : float).

Definition as_num (v : pyval) : option pynum :=
  match v with
  | VBool b => Some (NInt (if b then 1 else 0))
  | VInt z => Some (NInt z)
  | VFloat f => Some (NFloat f)
  | _ => None
  end.

Definition as_float (v : pyval) : option float :=
  match as_num v with
  | Some (NInt z) => Some (float_of_Z z)
  | Some (NFloat f) => Some f
  | None => None
  end.

Definition num_eq (a b : pynum) : bool :=
  match a, b with
  | NInt x, NInt y => x =? y
  | NInt x, NFloat g => PrimFloat.eqb (float_of_Z x) g
  | NFloat f, NInt y => PrimFloat.eqb f (float_of_Z y)
  | NFloat f, NFloat g => PrimFloat.eqb f g
  end.

(** [a == b] *)
Fixpoint py_eq (a b : pyval) : bool :=
  match a, b with
  | VNone, VNone => true
  | VStr s, VStr t => String.eqb s t
  | VList l, VList k =>
      (fix go (l k : list pyval) : bool :=
         match l, k with
         | [], [] => true
         | x :: l', y :: k' => py_eq x y && go l' k'
         | _, _ => false
         end) l k
  | _, _ =>
      match as_num a, as_num b with
      | Some x, Some y => num_eq x y
      | _, _ => false
      end
  end.

(** [a != b] *)
Definition py_ne (a b : pyval) : bool := negb (py_eq a b).

(** ** Exceptions and the method monad *)

Inductive exn : Type :=
| TypeError
| ValueError
| KeyError
| NameError
| IndexError
| AttributeError
| RuntimeError.

Inductive outcome (A : Type) : Type :=
| Return (a : A)
| Raise (e : exn).

Arguments Return {A} a.
Arguments Raise {A} e.

Global Instance outcome_ret : MRet outcome := fun A a => Return a.

Global Instance outcome_bind : MBind outcome := fun A B f o =>
  match o with
  | Return a => f a
  | Raise e => Raise e
  end.

(** [x / float(k)], [x * float(k)], [x + 1] and [int(x)] *)
Definition py_div (v : pyval) (k : float) : outcome pyval :=
  match as_float v with
  | Some x => Return (VFloat (x / k))
  | None => Raise TypeError
  end.

Definition py_mul (v : pyval) (k : float) : outcome pyval :=
  match as_float v with
  | Some x => Return (VFloat (x * k))
  | None => Raise TypeError
  end.

Definition py_succ (v : pyval) : outcome pyval :=
  match as_num v with
  | Some (NInt z) => Return (VInt (z + 1))
  | Some (NFloat f) => Return (VFloat (f + 1))
  | None => Raise TypeError
  end.

Definition py_int (v : pyval) : outcome pyval :=
  match as_num v with
  | Some (NInt z) => Return (VInt z)
  | Some (NFloat f) =>
      match Z_of_float f with
      | Some z => Return (VInt z)
      | None => Raise ValueError
      end
  | None => Raise TypeError
  end.

(** A [dict] with string keys. *)
Abbreviation pydict := (gmap string pyval).

Definition dict_truthy (d : pydict) : bool :=
  match map_to_list d with
  | [] => false
  | _ => true
  end.

(** [d.get(k, dflt)] *)
Definition dict_get (d : pydict) (k : string) (dflt : pyval) : pyval :=
  default dflt (d !! k).

(** [d[k]] *)
Definition dict_item (d : pydict) (k : string) : outcome pyval :=
  match d !! k with
  | Some v => Return v
  | None => Raise KeyError
  end.

(** ** The host session *)

(** One attribute of a scene node, as [cmds.getAttr] and
    [cmds.attributeQuery] report it. *)
Record Attr : Type := mkAttr {
  a_type : string;
  a_value : pyval;
  a_locked : bool;
  a_minimum : option pyval;
  a_maximum : option pyval;
  a_softRange : option pyval;
  a_listEnum : string
}.

(** The scene ([attrs], keyed by plug string [node.attribute], and [nodes]),
    the dirty-plug callbacks the host holds, the number of idle callbacks
    scheduled with [cmds.evalDeferred], and what an observer of the session
    sees: the plugs read, the writes attempted, and how often [valueChanged]
    was emitted. *)
Record World : Type := mkWorld {
  attrs : gmap string Attr;
  nodes : gset string;
  callbacks : list nat;
  next_callback : nat;
  deferred : nat;
  getAttr_log : list pyval;
  setAttr_log : list (pyval * pyval);
  valueChanged_count : nat
}.

(** Field updates. *)
Definition set_attrs (x : gmap string Attr) (w : World) : World :=
  mkWorld x (nodes w) (callbacks w) (next_callback w) (deferred w)
    (getAttr_log w) (setAttr_log w) (valueChanged_count w).

Definition set_callbacks (x : list nat) (w : World) : World :=
  mkWorld (attrs w) (nodes w) x (next_callback w) (deferred w)
    (getAttr_log w) (setAttr_log w) (valueChanged_count w).

Definition set_next_callback (x : nat) (w : World) : World :=
  mkWorld (attrs w) (nodes w) (callbacks w) x (deferred w) (getAttr_log w)
    (setAttr_log w) (valueChanged_count w).

Definition set_deferred (x : nat) (w : World) : World :=
  mkWorld (attrs w) (nodes w) (callbacks w) (next_callback w) x
    (getAttr_log w) (setAttr_log w) (valueChanged_count w).

Definition set_getAttr_log (x : list pyval) (w : World) : World :=
  mkWorld (attrs w) (nodes w) (callbacks w) (next_callback w) (deferred w) x
    (setAttr_log w) (valueChanged_count w).

Definition set_setAttr_log (x : list (pyval * pyval)) (w : World) : World :=
  mkWorld (attrs w) (nodes w) (callbacks w) (next_callback w) (deferred w)
    (getAttr_log w) x (valueChanged_count w).

Definition set_valueChanged_count (x : nat) (w : World) : World :=
  mkWorld (attrs w) (nodes w) (callbacks w) (next_callback w) (deferred w)
    (getAttr_log w) (setAttr_log w) x.

(** ** Widgets *)

Inductive WidgetClass : Type :=
| BaseAttributeWidget
| StringAttributeWidget
| EnumAttributeWidget
| FloatNumericSimpleAttributeWidget
| FloatNumericAttributeWidget
| IntegerNumericSimpleAttributeWidget
| IntegerNumericAttributeWidget
| BoolAttributeWidget.

Global Instance WidgetClass_eq_dec : EqDecision WidgetClass.
Proof. solve_decision. Defined.

(** [MCallbackIdWrapper(callbackId)] *)
Record MCallbackIdWrapper : Type := mkWrapper { callbackId : nat }.

(** What a combo box shows: its option list and the current row, [-1] for
    none. *)
Record QComboBox : Type := mkCombo {
  items : list pyval;
  currentIndex : Z
}.

(** The instance attributes of a widget and what its controls show.  A class
    only ever touches the controls it builds. *)
Record Widget : Type := mkWidget {
  cls : WidgetClass;
  _node : string;
  _attribute : string;
  _plugString : string;
  _displayName : pyval;
  _attributeType : string;
  _isConnected : bool;
  _attributeDefaults : pydict;
  _value : pyval;
  _customIncrement : pyval;
  _deferredUpdateRequest : list bool;
  _nodeCallbacks : list MCallbackIdWrapper;
  _sceneAttributeData : pydict;
  _enumValues : pyval;
  _lineEdit : string;
  _comboBox : QComboBox;
  _spinBox : pyval;
  _slider : pyval;
  _checkBox : bool
}.

(** Field updates. *)
Definition set_isConnected (x : bool) (s : Widget) : Widget :=
  mkWidget (cls s) (_node s) (_attribute s) (_plugString s) (_displayName s)
    (_attributeType s) x (_attributeDefaults s) (_value s) (_customIncrement s)
    (_deferredUpdateRequest s) (_nodeCallbacks s) (_sceneAttributeData s)
    (_enumValues s) (_lineEdit s) (_comboBox s) (_spinBox s) (_slider s)
    (_checkBox s).

Definition set_attributeDefaults (x : pydict) (s : Widget) : Widget :=
  mkWidget (cls s) (_node s) (_attribute s) (_plugString s) (_displayName s)
    (_attributeType s) (_isConnected s) x (_value s) (_customIncrement s)
    (_deferredUpdateRequest s) (_nodeCallbacks s) (_sceneAttributeData s)
    (_enumValues s) (_lineEdit s) (_comboBox s) (_spinBox s) (_slider s)
    (_checkBox s).

Definition set_value (x : pyval) (s : Widget) : Widget :=
  mkWidget (cls s) (_node s) (_attribute s) (_plugString s) (_displayName s)
    (_attributeType s) (_isConnected s) (_attributeDefaults s) x
    (_customIncrement s) (_deferredUpdateRequest s) (_nodeCallbacks s)
    (_sceneAttributeData s) (_enumValues s) (_lineEdit s) (_comboBox s)
    (_spinBox s) (_slider s) (_checkBox s).

Definition set_customIncrement (x : pyval) (s : Widget) : Widget :=
  mkWidget (cls s) (_node s) (_attribute s) (_plugString s) (_displayName s)
    (_attributeType s) (_isConnected s) (_attributeDefaults s) (_value s) x
    (_deferredUpdateRequest s) (_nodeCallbacks s) (_sceneAttributeData s)
    (_enumValues s) (_lineEdit s) (_comboBox s) (_spinBox s) (_slider s)
    (_checkBox s).

Definition set_deferredUpdateRequest (x : list bool) (s : Widget) : Widget :=
  mkWidget (cls s) (_node s) (_attribute s) (_plugString s) (_displayName s)
    (_attributeType s) (_isConnected s) (_attributeDefaults s) (_value s)
    (_customIncrement s) x (_nodeCallbacks s) (_sceneAttributeData s)
    (_enumValues s) (_lineEdit s) (_comboBox s) (_spinBox s) (_slider s)
    (_checkBox s).

Definition set_nodeCallbacks (x : list MCallbackIdWrapper) (s : Widget) : Widget :=
  mkWidget (cls s) (_node s) (_attribute s) (_plugString s) (_displayName s)
    (_attributeType s) (_isConnected s) (_attributeDefaults s) (_value s)
    (_customIncrement s) (_deferredUpdateRequest s) x (_sceneAttributeData s)
    (_enumValues s) (_lineEdit s) (_comboBox s) (_spinBox s) (_slider s)
    (_checkBox s).

Definition set_sceneAttributeData (x : pydict) (s : Widget) : Widget :=
  mkWidget (cls s) (_node s) (_attribute s) (_plugString s) (_displayName s)
    (_attributeType s) (_isConnected s) (_attributeDefaults s) (_value s)
    (_customIncrement s) (_deferredUpdateRequest s) (_nodeCallbacks s) x
    (_enumValues s) (_lineEdit s) (_comboBox s) (_spinBox s) (_slider s)
    (_checkBox s).

Definition set_enumValues (x : pyval) (s : Widget) : Widget :=
  mkWidget (cls s) (_node s) (_attribute s) (_plugString s) (_displayName s)
    (_attributeType s) (_isConnected s) (_attributeDefaults s) (_value s)
    (_customIncrement s) (_deferredUpdateRequest s) (_nodeCallbacks s)
    (_sceneAttributeData s) x (_lineEdit s) (_comboBox s) (_spinBox s)
    (_slider s) (_checkBox s).

Definition set_lineEdit (x : string) (s : Widget) : Widget :=
  mkWidget (cls s) (_node s) (_attribute s) (_plugString s) (_displayName s)
    (_attributeType s) (_isConnected s) (_attributeDefaults s) (_value s)
    (_customIncrement s) (_deferredUpdateRequest s) (_nodeCallbacks s)
    (_sceneAttributeData s) (_enumValues s) x (_comboBox s) (_spinBox s)
    (_slider s) (_checkBox s).

Definition set_comboBox (x : QComboBox) (s : Widget) : Widget :=
  mkWidget (cls s) (_node s) (_attribute s) (_plugString s) (_displayName s)
    (_attributeType s) (_isConnected s) (_attributeDefaults s) (_value s)
    (_customIncrement s) (_deferredUpdateRequest s) (_nodeCallbacks s)
    (_sceneAttributeData s) (_enumValues s) (_lineEdit s) x (_spinBox s)
    (_slider s) (_checkBox s).

Definition set_spinBox (x : pyval) (s : Widget) : Widget :=
  mkWidget (cls s) (_node s) (_attribute s) (_plugString s) (_displayName s)
    (_attributeType s) (_isConnected s) (_attributeDefaults s) (_value s)
    (_customIncrement s) (_deferredUpdateRequest s) (_nodeCallbacks s)
    (_sceneAttributeData s) (_enumValues s) (_lineEdit s) (_comboBox s) x
    (_slider s) (_checkBox s).

Definition set_slider (x : pyval) (s : Widget) : Widget :=
  mkWidget (cls s) (_node s) (_attribute s) (_plugString s) (_displayName s)
    (_attributeType s) (_isConnected s) (_attributeDefaults s) (_value s)
    (_customIncrement s) (_deferredUpdateRequest s) (_nodeCallbacks s)
    (_sceneAttributeData s) (_enumValues s) (_lineEdit s) (_comboBox s)
    (_spinBox s) x (_checkBox s).

Definition set_checkBox (x : bool) (s : Widget) : Widget :=
  mkWidget (cls s) (_node s) (_attribute s) (_plugString s) (_displayName s)
    (_attributeType s) (_isConnected s) (_attributeDefaults s) (_value s)
    (_customIncrement s) (_deferredUpdateRequest s) (_nodeCallbacks s)
    (_sceneAttributeData s) (_enumValues s) (_lineEdit s) (_comboBox s)
    (_spinBox s) (_slider s) x.

(** ** Methods as computations *)

Record St : Type := mkSt {
  world : World;
  self : Widget
}.

Definition M (A : Type) : Type := St -> outcome A * St.

Global Instance M_ret : MRet M := fun A a st => (Return a, st).

Global Instance M_bind : MBind M := fun A B f m st =>
  match m st with
  | (Return a, st') => f a st'
  | (Raise e, st') => (Raise e, st')
  end.

Definition raise {A : Type} (e : exn) : M A := fun st => (Raise e, st).

(** A pure step that may raise. *)
Definition lift {A : Type} (o : outcome A) : M A := fun st => (o, st).

(** [try: m except Exception: h] *)
Definition try_except {A : Type} (m : M A) (h : M A) : M A := fun st =>
  match m st with
  | (Return a, st') => (Return a, st')
  | (Raise _, st') => h st'
  end.

(** A slot called by the toolkit when a signal fires: an exception raised in
    the slot is reported by the toolkit and does not reach the code that
    changed the control. *)
Definition slot (m : M unit) : M unit := try_except m (mret ()).

Definition get_self : M Widget := fun st => (Return (self st), st).
Definition get_world : M World := fun st => (Return (world st), st).

Definition modify_self (f : Widget -> Widget) : M unit := fun st =>
  (Return (), {| world := world st; self := f (self st) |}).

Definition modify_world (f : World -> World) : M unit := fun st =>
  (Return (), {| world := f (world st); self := self st |}).

(** Python's [for x in l: body]. *)
Fixpoint for_each {A : Type} (l : list A) (body : A -> M unit) : M unit :=
  match l with
  | [] => mret ()
  | x :: l' => body x ;; for_each l' body
  end.

(** *** The host's commands *)

(** A plug argument must be a string. *)
Definition plug_name (p : pyval) : M string :=
  match p with
  | VStr s => mret s
  | _ => raise TypeError
  end.

(** [cmds.objExists(p)] *)
Definition cmds_objExists (p : pyval) : M bool :=
  name ← plug_name p;
  w ← get_world;
  mret (bool_decide (is_Some (attrs w !! name))).

(** [cmds.getAttr(p)]: one external read. *)
Definition cmds_getAttr (p : pyval) : M pyval :=
  modify_world (fun w => set_getAttr_log (getAttr_log w ++ [p]) w) ;;
  name ← plug_name p;
  w ← get_world;
  match attrs w !! name with
  | Some a => mret (a_value a)
  | None => raise ValueError
  end.

(** [cmds.getAttr(p, type=True)] *)
Definition cmds_getAttr_type (p : pyval) : M string :=
  name ← plug_name p;
  w ← get_world;
  match attrs w !! name with
  | Some a => mret (a_type a)
  | None => raise ValueError
  end.

(** Whether the scene takes [v] for attribute [a]: the attribute is not
    locked, a string attribute is given a string together with
    [type='string'], any other attribute a number. *)
Definition host_accepts (a : Attr) (ty : option string) (v : pyval) : bool :=
  negb (a_locked a) &&
  match v with
  | VStr _ => String.eqb (a_type a) "string" && bool_decide (ty = Some "string")
  | VBool _ | VInt _ | VFloat _ => negb (String.eqb (a_type a) "string")
  | _ => false
  end.

(** [cmds.setAttr(p, v)] and [cmds.setAttr(p, v, type=ty)]: one external
    write, which the scene may reject. *)
Definition cmds_setAttr (p v : pyval) (ty : option string) : M unit :=
  modify_world (fun w => set_setAttr_log (setAttr_log w ++ [(p, v)]) w) ;;
  name ← plug_name p;
  w ← get_world;
  match attrs w !! name with
  | Some a =>
      if host_accepts a ty v
      then modify_world (set_attrs
             (<[name := mkAttr (a_type a) v (a_locked a) (a_minimum a)
                          (a_maximum a) (a_softRange a) (a_listEnum a)]> (attrs w)))
      else raise RuntimeError
  | None => raise RuntimeError
  end.

(** [cmds.attributeQuery(attribute, node=node, ...)] finds the attribute of
    the plug [node.attribute]. *)
Definition cmds_attributeQuery (node attribute : string) : M Attr :=
  w ← get_world;
  match attrs w !! (node +:+ "." +:+ attribute) with
  | Some a => mret a
  | None => raise RuntimeError
  end.

(** [cmds.evalDeferred(f, low=True)]: [f] runs once when the host is idle. *)
Definition cmds_evalDeferred : M unit :=
  modify_world (fun w => set_deferred (S (deferred w)) w).

(** [_getDependNode(nodeName)]: [MSelectionList.add] raises unless the name
    is that of a node of the scene. *)
Definition _getDependNode (nodeName : pyval) : M string :=
  match nodeName with
  | VStr n =>
      w ← get_world;
      if bool_decide (n ∈ nodes w) then mret n else raise RuntimeError
  | _ => raise TypeError
  end.

(** [om.MNodeMessage.addNodeDirtyPlugCallback(nodeObj, self._onDirtyPlug, None)] *)
Definition addNodeDirtyPlugCallback (nodeObj : string) : M nat :=
  w ← get_world;
  modify_world (fun w => set_next_callback (S (next_callback w))
                           (set_callbacks (callbacks w ++ [next_callback w]) w)) ;;
  mret (next_callback w).

(** [MCallbackIdWrapper.__del__]: [om.MMessage.removeCallback(self.callbackId)] *)
Definition MCallbackIdWrapper_del (c : MCallbackIdWrapper) : M unit :=
  modify_world (fun w =>
    set_callbacks (filter (fun i => i ≠ callbackId c) (callbacks w)) w).

(** [valueChanged.emit()] *)
Definition valueChanged_emit : M unit :=
  modify_world (fun w => set_valueChanged_count (S (valueChanged_count w)) w).

(** ** Module constants *)

Definition K_FLOAT_WIDGET_STEP_INCREMENT : pyval := VFloat 0.01%float.
Definition K_FLOAT_WIDGET_FACTOR : Z := 100.
Definition K_INTEGER_WIDGET_STEP_INCREMENT : Z := 1.

Definition K_INTEGER_ATTR_DEFAULTS : pydict :=
  <["value" := VInt 0]> (<["minimum" := VInt 0]> (<["maximum" := VInt 10000]>
  (<["softRange" := VList [VInt 0; VInt 10000]]> ∅))).

Definition K_FLOAT_ATTR_DEFAULTS : pydict :=
  <["value" := VFloat 0]> (<["minimum" := VFloat 0]> (<["maximum" := VFloat 10000]>
  (<["softRange" := VList [VFloat 0; VFloat 10000]]> ∅))).

Definition K_STRING_ATTR_DEFAULTS : pydict := <["value" := VStr ""]> ∅.

Definition K_OVR_PLUG_OVERRIDE_DATA_KEYS : string := "overridePlug".

(** ** The classes *)

(** What [vars(cls)] holds under a name: a plain function, a [property], or
    anything else (a class constant, the signal, toolkit metadata). *)
Inductive member : Type :=
| Function
| Property
| ClassAttribute.

Definition is_property (m : member) : bool :=
  match m with Property => true | _ => false end.

Definition is_function (m : member) : bool :=
  match m with Function => true | _ => false end.

(** [vars(cls)], in the order of the class body.  (The iteration order of a
    class dictionary is not fixed by the language; nothing proved below
    depends on it beyond what is said there.) *)
Definition vars (c : WidgetClass) : list (string * member) :=
  match c with
  | BaseAttributeWidget =>
      [("__module__", ClassAttribute); ("staticMetaObject", ClassAttribute);
       ("valueChanged", ClassAttribute); ("VALID_ATTR_TYPES", ClassAttribute);
       ("ALWAYS_SKIP_PROPERTIES", ClassAttribute);
       ("PUSH_SKIP_PROPERTIES", ClassAttribute); ("GARBAGE_TEST", ClassAttribute);
       ("__init__", Function); ("wheelEvent", Function);
       ("node", Property); ("attribute", Property); ("attributeType", Property);
       ("isConnected", Property); ("plugString", Property); ("value", Property);
       ("_onGetAttr", Function); ("_onSetAttr", Function); ("_onDirtyPlug", Function);
       ("_processDeferredUpdateRequest", Function); ("_buildWidget", Function);
       ("_setupSocketConnections", Function); ("_updateWidgetValues", Function);
       ("_widgetUpdated", Function); ("_findOverrideNodeForLayer", Function);
       ("_getAttributeInformation", Function); ("_getAllProperties", Function);
       ("connectToNode", Function); ("disConnectFromNode", Function);
       ("setLiveMode", Function); ("stealMyData", Function);
       ("pushInData", Function); ("resetToDefaultValue", Function)]
  | StringAttributeWidget | BoolAttributeWidget =>
      [("__module__", ClassAttribute); ("staticMetaObject", ClassAttribute);
       ("VALID_ATTR_TYPES", ClassAttribute); ("__init__", Function);
       ("_getAttributeInformation", Function); ("_buildWidget", Function);
       ("_setupSocketConnections", Function); ("_updateWidgetValues", Function);
       ("_widgetUpdated", Function)]
  | EnumAttributeWidget =>
      [("__module__", ClassAttribute); ("staticMetaObject", ClassAttribute);
       ("VALID_ATTR_TYPES", ClassAttribute); ("__init__", Function);
       ("enumValues", Property);
       ("_getAttributeInformation", Function); ("_buildWidget", Function);
       ("_setupSocketConnections", Function); ("_silentUpdateSelf", Function);
       ("_updateWidgetValues", Function); ("_widgetUpdated", Function)]
  | FloatNumericSimpleAttributeWidget | IntegerNumericSimpleAttributeWidget =>
      [("__module__", ClassAttribute); ("staticMetaObject", ClassAttribute);
       ("IS_SIMPLE", ClassAttribute); ("VALID_ATTR_TYPES", ClassAttribute);
       ("__init__", Function); ("_getAttributeInformation", Function);
       ("_buildWidget", Function); ("_setupSocketConnections", Function);
       ("_spinBoxUpdated", Function); ("_silentSpinBoxUpdate", Function);
       ("_updateWidgetValues", Function); ("_widgetUpdated", Function)]
  | FloatNumericAttributeWidget | IntegerNumericAttributeWidget =>
      [("__module__", ClassAttribute); ("staticMetaObject", ClassAttribute);
       ("IS_SIMPLE", ClassAttribute); ("__init__", Function);
       ("_buildWidget", Function); ("_setupSocketConnections", Function);
       ("_spinBoxUpdated", Function); ("_sliderUpdated", Function);
       ("_silentSliderUpdate", Function); ("_updateWidgetValues", Function)]
  end.

(** [cls.__bases__], without the toolkit's [QWidget], whose dictionary holds
    no [property]. *)
Definition bases (c : WidgetClass) : list WidgetClass :=
  match c with
  | BaseAttributeWidget => []
  | FloatNumericAttributeWidget =>
      [FloatNumericSimpleAttributeWidget; BaseAttributeWidget]
  | IntegerNumericAttributeWidget =>
      [IntegerNumericSimpleAttributeWidget; BaseAttributeWidget]
  | _ => [BaseAttributeWidget]
  end.

(** [cls.VALID_ATTR_TYPES], looked up along the method resolution order. *)
Definition VALID_ATTR_TYPES (c : WidgetClass) : list string :=
  match c with
  | BaseAttributeWidget => []
  | StringAttributeWidget => ["string"]
  | EnumAttributeWidget => ["enum"]
  | FloatNumericSimpleAttributeWidget | FloatNumericAttributeWidget =>
      ["doubleLinear"; "double"; "float"; "time"; "doubleAngle"]
  | IntegerNumericSimpleAttributeWidget | IntegerNumericAttributeWidget =>
      ["long"; "short"; "byte"]
  | BoolAttributeWidget => ["bool"]
  end.

Definition ALWAYS_SKIP_PROPERTIES : list string :=
  ["valueChanged"; "staticMetaObject"; "VALID_ATTR_TYPES";
   "PUSH_SKIP_PROPERTIES"; "GARBAGE_TEST"].

Definition PUSH_SKIP_PROPERTIES : list string :=
  ["node"; "attribute"; "attributeType"; "isConnected"; "plugString"].

Definition GARBAGE_TEST : pyval := VStr "GAdbsdbrhad".

(** [x in l] for a list of strings *)
Definition str_in (x : string) (l : list string) : bool :=
  existsb (String.eqb x) l.

(** [attr.startswith('_')] *)
Definition startswith_underscore (attr : string) : bool :=
  match attr with
  | String c _ => Ascii.eqb c "_"%char
  | EmptyString => false
  end.

(** [_getAllProperties]: the properties of the class itself, then those of
    each direct base that are not listed yet. *)
Definition _getAllProperties (c : WidgetClass) : list string :=
  let validAttrs :=
    fold_left (fun validAttrs '(attr, m) =>
      if startswith_underscore attr then validAttrs
      else if is_function m then validAttrs
      else if is_property m && negb (str_in attr ALWAYS_SKIP_PROPERTIES)
           then validAttrs ++ [attr]
           else validAttrs) (vars c) [] in
  fold_left (fun validAttrs parent =>
    fold_left (fun validAttrs '(attr, m) =>
      if str_in attr validAttrs then validAttrs
      else if startswith_underscore attr then validAttrs
      else if is_function m then validAttrs
      else if negb (is_property m) || str_in attr ALWAYS_SKIP_PROPERTIES
           then validAttrs
      else if negb (str_in attr validAttrs) then validAttrs ++ [attr]
      else validAttrs) (vars parent) validAttrs) (bases c) validAttrs.

(** ** The controls *)

(** Each setter stores what the control then shows and reports whether that
    differs from what it showed before, which is when the control's change
    signal fires. *)

(** [QLineEdit.setText]; [None] is the null string. *)
Definition QLineEdit_setText (v : pyval) : M unit :=
  match v with
  | VStr t => modify_self (set_lineEdit t)
  | VNone => modify_self (set_lineEdit "")
  | _ => raise TypeError
  end.

(** [QDoubleSpinBox.setValue] and [QSpinBox.setValue] *)
Definition QSpinBox_setValue (v : pyval) : M bool :=
  match as_num v with
  | Some _ =>
      s ← get_self;
      modify_self (set_spinBox v) ;;
      mret (py_ne (_spinBox s) v)
  | None => raise TypeError
  end.

(** [QSlider.setValue] *)
Definition QSlider_setValue (v : pyval) : M bool :=
  match as_num v with
  | Some _ =>
      s ← get_self;
      modify_self (set_slider v) ;;
      mret (py_ne (_slider s) v)
  | None => raise TypeError
  end.

(** [QCheckBox.setChecked] *)
Definition QCheckBox_setChecked (v : pyval) : M bool :=
  match as_num v with
  | Some _ =>
      s ← get_self;
      modify_self (set_checkBox (truthy v)) ;;
      mret (negb (Bool.eqb (_checkBox s) (truthy v)))
  | None => raise TypeError
  end.

(** [QComboBox.setCurrentIndex]: a row that does not exist selects none. *)
Definition QComboBox_setCurrentIndex (v : pyval) : M bool :=
  match as_num v with
  | Some (NInt i) =>
      s ← get_self;
      let box := _comboBox s in
      let i' := if (0 <=? i) && (i <? Z.of_nat (length (items box))) then i else -1 in
      modify_self (set_comboBox (mkCombo (items box) i')) ;;
      mret (negb (currentIndex box =? i'))
  | _ => raise TypeError
  end.

(** [QComboBox.addItems]: the first row added to an empty box becomes the
    current one. *)
Definition QComboBox_addItems (l : pyval) : M bool :=
  match l with
  | VList new =>
      s ← get_self;
      let box := _comboBox s in
      let i' := match items box, new with
                | [], _ :: _ => 0
                | _, _ => currentIndex box
                end in
      modify_self (set_comboBox (mkCombo (items box ++ new) i')) ;;
      mret (negb (currentIndex box =? i'))
  | _ => raise TypeError
  end.

(** [QComboBox.removeItem]: nothing out of range; removing a row before the
    current one shifts the current index, removing the current row selects
    the row that takes its place (the last one, or none, when there is no
    such row). *)
Definition QComboBox_removeItem (i : Z) : M bool :=
  s ← get_self;
  let box := _comboBox s in
  if (0 <=? i) && (i <? Z.of_nat (length (items box))) then
    let items' := delete (Z.to_nat i) (items box) in
    let cur := currentIndex box in
    let cur' := if i <? cur then cur - 1
                else if i =? cur then Z.min cur (Z.of_nat (length items') - 1)
                else cur in
    modify_self (set_comboBox (mkCombo items' cur')) ;;
    mret ((i <? cur) || (i =? cur))
  else mret false.

(** ** The binding core: [BaseAttributeWidget] and its overrides *)

(** [_onSetAttr(force)]: write the cached value through to the scene. *)
Definition _onSetAttr (force : bool) : M unit :=
  s ← get_self;
  if negb force && negb (_isConnected s) then mret ()
  else
    let write (target : pyval) : M unit :=
      _val ← cmds_getAttr (VStr (_plugString s));
      try_except
        (if String.eqb (_attributeType s) "string"
         then cmds_setAttr target (_value s) (Some (_attributeType s))
         else cmds_setAttr target (_value s) None)
        (mret ()) in
    if dict_truthy (_sceneAttributeData s) then
      if negb (truthy (dict_get (_sceneAttributeData s) K_OVR_PLUG_OVERRIDE_DATA_KEYS VNone))
      then mret ()
      else
        target ← lift (dict_item (_sceneAttributeData s) K_OVR_PLUG_OVERRIDE_DATA_KEYS);
        write target
    else write (VStr (_plugString s)).

(** [_widgetUpdated]: a control was edited. *)
Definition _widgetUpdated : M unit :=
  s ← get_self;
  match cls s with
  | BaseAttributeWidget => valueChanged_emit
  | StringAttributeWidget =>
      modify_self (set_value (VStr (_lineEdit s))) ;;
      _onSetAttr false ;;
      valueChanged_emit
  | EnumAttributeWidget =>
      modify_self (set_value (VInt (currentIndex (_comboBox s)))) ;;
      _onSetAttr false ;;
      valueChanged_emit
  | FloatNumericSimpleAttributeWidget | FloatNumericAttributeWidget
  | IntegerNumericSimpleAttributeWidget | IntegerNumericAttributeWidget =>
      _onSetAttr false ;;
      valueChanged_emit
  | BoolAttributeWidget =>
      let _val := VBool (_checkBox s) in
      modify_self (set_value _val) ;;
      _onSetAttr false ;;
      valueChanged_emit
  end.

(** [_silentSpinBoxUpdate(val)]: the spin box is set while its listener is
    detached. *)
Definition _silentSpinBoxUpdate (val : pyval) : M unit :=
  s ← get_self;
  match cls s with
  | FloatNumericSimpleAttributeWidget | FloatNumericAttributeWidget
  | IntegerNumericSimpleAttributeWidget | IntegerNumericAttributeWidget =>
      QSpinBox_setValue val ;; mret ()
  | _ => raise AttributeError
  end.

(** [_silentSliderUpdate(val)]: the slider is set while its listener is
    detached; the float widget scales by the display factor. *)
Definition _silentSliderUpdate (val : pyval) : M unit :=
  s ← get_self;
  match cls s with
  | FloatNumericAttributeWidget =>
      x ← lift (py_mul val (float_of_Z K_FLOAT_WIDGET_FACTOR));
      QSlider_setValue x ;; mret ()
  | IntegerNumericAttributeWidget =>
      QSlider_setValue val ;; mret ()
  | _ => raise AttributeError
  end.

(** [_spinBoxUpdated(val)]: the slot of the spin box. *)
Definition _spinBoxUpdated (val : pyval) : M unit :=
  s ← get_self;
  match cls s with
  | FloatNumericSimpleAttributeWidget | IntegerNumericSimpleAttributeWidget =>
      modify_self (set_value val) ;;
      _widgetUpdated
  | FloatNumericAttributeWidget | IntegerNumericAttributeWidget =>
      _silentSliderUpdate val ;;
      modify_self (set_value val) ;;
      _widgetUpdated
  | _ => raise AttributeError
  end.

(** [_sliderUpdated(val)]: the slot of the slider. *)
Definition _sliderUpdated (val : pyval) : M unit :=
  s ← get_self;
  match cls s with
  | FloatNumericAttributeWidget =>
      x ← lift (py_div val (float_of_Z K_FLOAT_WIDGET_FACTOR));
      modify_self (set_value x) ;;
      _silentSpinBoxUpdate x ;;
      _widgetUpdated
  | IntegerNumericAttributeWidget =>
      _silentSpinBoxUpdate val ;;
      modify_self (set_value val) ;;
      _widgetUpdated
  | _ => raise AttributeError
  end.

(** [_updateWidgetValues]: put the cached value on display.  The enumeration
    widget's override only names [self._silentUpdateSelf] without calling
    it, so nothing reaches its combo box; the boolean widget sets its check
    box with the listener attached. *)
Definition _updateWidgetValues : M unit :=
  s ← get_self;
  match cls s with
  | BaseAttributeWidget => valueChanged_emit
  | StringAttributeWidget =>
      (if py_ne (_value s) (VStr (_lineEdit s))
       then QLineEdit_setText (_value s)
       else mret ()) ;;
      valueChanged_emit
  | EnumAttributeWidget => valueChanged_emit
  | FloatNumericSimpleAttributeWidget | IntegerNumericSimpleAttributeWidget =>
      (if py_ne (_value s) (_spinBox s)
       then _silentSpinBoxUpdate (_value s)
       else mret ()) ;;
      valueChanged_emit
  | FloatNumericAttributeWidget =>
      (if py_ne (_value s) (_spinBox s)
       then _silentSpinBoxUpdate (_value s)
       else mret ()) ;;
      valueChanged_emit ;;
      s ← get_self;
      shown ← lift (py_div (_slider s) (float_of_Z K_FLOAT_WIDGET_FACTOR));
      if py_ne (_value s) shown
      then x ← lift (py_mul (_value s) (float_of_Z K_FLOAT_WIDGET_FACTOR));
           _silentSliderUpdate x
      else mret ()
  | IntegerNumericAttributeWidget =>
      (if py_ne (_value s) (_spinBox s)
       then _silentSpinBoxUpdate (_value s)
       else mret ()) ;;
      valueChanged_emit ;;
      s ← get_self;
      if py_ne (_value s) (_slider s)
      then _silentSliderUpdate (_value s)
      else mret ()
  | BoolAttributeWidget =>
      changed ← QCheckBox_setChecked (_value s);
      (if changed : bool then slot _widgetUpdated else mret ()) ;;
      valueChanged_emit
  end.

(** The [value] property. *)
Definition value (s : Widget) : pyval := _value s.

Definition value_setter (val : pyval) : M unit :=
  modify_self (set_value val) ;;
  _onSetAttr false ;;
  _updateWidgetValues.

(** [_onGetAttr]: read the scene's value into the cache; returns [None]
    when nothing was adopted. *)
Definition _onGetAttr : M pyval :=
  s ← get_self;
  if negb (_isConnected s) then mret VNone
  else
    let adopt (_val : pyval) : M pyval :=
      if negb (truthy _val) then mret VNone
      else
        modify_self (set_value _val) ;;
        _updateWidgetValues ;;
        mret _val in
    if dict_truthy (_sceneAttributeData s) then
      if negb (truthy (dict_get (_sceneAttributeData s) K_OVR_PLUG_OVERRIDE_DATA_KEYS VNone))
      then mret VNone
      else
        p ← lift (dict_item (_sceneAttributeData s) K_OVR_PLUG_OVERRIDE_DATA_KEYS);
        _val ← cmds_getAttr p;
        adopt _val
    else
      _val ← cmds_getAttr (VStr (_plugString s));
      adopt _val.

(** [_onDirtyPlug(node, plug)]: the host reports the node dirty.  The names
    it asks the plug for are not used. *)
Definition _onDirtyPlug : M unit :=
  modify_self (fun s => set_deferredUpdateRequest (_deferredUpdateRequest s ++ [true]) s) ;;
  s ← get_self;
  if bool_decide (length (_deferredUpdateRequest s) = 1%nat)
  then cmds_evalDeferred
  else mret ().

(** [_processDeferredUpdateRequest]: the idle callback. *)
Definition _processDeferredUpdateRequest : M unit :=
  s ← get_self;
  (match _deferredUpdateRequest s with
   | [] => mret ()
   | _ :: _ => _onGetAttr ;; mret ()
   end) ;;
  modify_self (set_deferredUpdateRequest []).

(** *** Connecting to the scene *)

Section Connection.

(** [getNodeFromPlugString] calls [splitPlugString], which the module
    neither defines nor imports.  It is a parameter here: a behaviour that
    raises for every argument is the module run on its own. *)
Variable splitPlugString : pyval -> outcome (list pyval).

(** [getNodeFromPlugString(plugString)]: the first part of the split, and
    [None] when anything goes wrong. *)
Definition getNodeFromPlugString (plugString : pyval) : pyval :=
  match splitPlugString plugString with
  | Return (part :: _) => part
  | _ => VNone
  end.

(** [connectToNode(pull)].  Rebinding [self._nodeCallbacks] drops the only
    reference to each wrapper of the old list, whose [__del__] then runs. *)
Definition connectToNode (pull : bool) : M unit :=
  s ← get_self;
  for_each (_nodeCallbacks s) MCallbackIdWrapper_del ;;
  modify_self (set_nodeCallbacks []) ;;
  modify_self (set_deferredUpdateRequest []) ;;
  if _isConnected s then mret ()
  else
    let connect (target : pyval) : M unit :=
      present ← cmds_objExists target;
      if negb present then mret ()
      else if negb (str_in (_attributeType s) (VALID_ATTR_TYPES (cls s))) then mret ()
      else
        let _node := getNodeFromPlugString target in
        let subscribe : M unit :=
          _nodeObj ← _getDependNode _node;
          _cb ← addNodeDirtyPlugCallback _nodeObj;
          modify_self (fun s => set_nodeCallbacks (_nodeCallbacks s ++ [mkWrapper _cb]) s) ;;
          modify_self (set_isConnected true) in
        if pull then
          queried ← try_except (_val ← _onGetAttr; mret (Some _val)) (mret None);
          match queried with
          | None => mret ()
          | Some _val => value_setter _val ;; subscribe
          end
        else _onSetAttr true ;; subscribe in
    if dict_truthy (_sceneAttributeData s) then
      if negb (truthy (dict_get (_sceneAttributeData s) K_OVR_PLUG_OVERRIDE_DATA_KEYS VNone))
      then mret ()
      else
        target ← lift (dict_item (_sceneAttributeData s) K_OVR_PLUG_OVERRIDE_DATA_KEYS);
        connect target
    else connect (VStr (_plugString s)).

(** [disConnectFromNode].  [del _callback] in the closing loop unbinds the
    loop variable; the list still refers to every wrapper. *)
Definition disConnectFromNode : M unit :=
  s ← get_self;
  if negb (_isConnected s) then mret ()
  else
    _onGetAttr ;;
    modify_self (set_isConnected false) ;;
    s ← get_self;
    for_each (_nodeCallbacks s) (fun _callback => mret ()).

(** [setLiveMode(state)] *)
Definition setLiveMode (state : bool) : M unit :=
  s ← get_self;
  if Bool.eqb state (_isConnected s) then mret ()
  else if state then connectToNode false
  else disConnectFromNode.

End Connection.

(** *** Snapshot and restore *)

(** The [enumValues] property of the enumeration widget. *)
Definition enumValues (s : Widget) : pyval := _enumValues s.

Definition enumValues_setter (val : pyval) : M unit :=
  match val with
  | VList _ =>
      s ← get_self;
      if py_ne val (_enumValues s) then
        let changed (m : M bool) : M unit :=
          fired ← m;
          if fired : bool then slot _widgetUpdated else mret () in
        for_each (seqZ 0 (Z.of_nat (length (items (_comboBox s))) - 1))
          (fun _idx => changed (QComboBox_removeItem _idx)) ;;
        changed (QComboBox_addItems val) ;;
        modify_self (set_enumValues val) ;;
        s ← get_self;
        changed (QComboBox_addItems (_enumValues s)) ;;
        s ← get_self;
        changed (QComboBox_setCurrentIndex (value s))
      else mret ()
  | _ => raise TypeError
  end.

(** [getattr(self, name)] for the names [_getAllProperties] can return. *)
Definition getattr (name : string) : M pyval :=
  s ← get_self;
  if String.eqb name "node" then mret (VStr (_node s))
  else if String.eqb name "attribute" then mret (VStr (_attribute s))
  else if String.eqb name "attributeType" then mret (VStr (_attributeType s))
  else if String.eqb name "isConnected" then mret (VBool (_isConnected s))
  else if String.eqb name "plugString" then mret (VStr (_plugString s))
  else if String.eqb name "value" then mret (value s)
  else if String.eqb name "enumValues" && bool_decide (cls s = EnumAttributeWidget)
       then mret (enumValues s)
  else raise AttributeError.

(** [setattr(self, name, val)]: [value] and [enumValues] have a setter, the
    other properties have none, and any other name becomes a plain attribute
    of the object, which the model does not follow. *)
Definition setattr (name : string) (val : pyval) : M unit :=
  s ← get_self;
  if String.eqb name "value" then value_setter val
  else if String.eqb name "enumValues" && bool_decide (cls s = EnumAttributeWidget)
       then enumValues_setter val
  else if str_in name PUSH_SKIP_PROPERTIES then raise AttributeError
  else mret ().

(** [stealMyData] *)
Definition stealMyData : M pydict :=
  s ← get_self;
  let _returnData : pydict :=
    if dict_truthy (_sceneAttributeData s) then _sceneAttributeData s else ∅ in
  fold_left (fun (acc : M pydict) _prop =>
    _returnData ← acc;
    v ← getattr _prop;
    mret (<[_prop := v]> _returnData))
    (_getAllProperties (cls s)) (mret _returnData).

(** [resetToDefaultValue] *)
Definition resetToDefaultValue : M unit :=
  s ← get_self;
  if py_ne (dict_get (_attributeDefaults s) "value" (VStr "dhgwsdbsadbsdb"))
           (VStr "dhgwsdbsadbsdb")
  then v ← lift (dict_item (_attributeDefaults s) "value"); value_setter v
  else mret ().

(** [pushInData(data)]; an absent bundle ([None]) is the empty one. *)
Definition pushInData (data : pydict) : M unit :=
  if negb (dict_truthy data) then resetToDefaultValue
  else
    modify_self (set_sceneAttributeData data) ;;
    s ← get_self;
    for_each (_getAllProperties (cls s)) (fun _prop =>
      if str_in _prop PUSH_SKIP_PROPERTIES then mret ()
      else if py_ne (dict_get data _prop GARBAGE_TEST) GARBAGE_TEST
      then v ← lift (dict_item data _prop); setattr _prop v
      else mret ()).

(** *** Construction *)

(** [s.split(sep)], with [cur] the piece being read. *)
Fixpoint str_split (sep : ascii) (s : string) (cur : string) : list string :=
  match s with
  | EmptyString => [cur]
  | String c rest =>
      if Ascii.eqb c sep then cur :: str_split sep rest ""
      else str_split sep rest (cur +:+ String c "")
  end.

(** [v[i]] for a list *)
Definition py_index (v : pyval) (i : nat) : outcome pyval :=
  match v with
  | VList l =>
      match l !! i with
      | Some x => Return x
      | None => Raise IndexError
      end
  | _ => Raise TypeError
  end.

(** [_getAttributeInformation]: the defaults of the widget, from the scene
    when the plug exists. *)
Definition _getAttributeInformation : M pydict :=
  s ← get_self;
  let plug := VStr (_plugString s) in
  let numeric (_attrData : pydict) : M pydict :=
    present ← cmds_objExists plug;
    if negb present then mret _attrData
    else
      _tempValue ← cmds_getAttr plug;
      a ← cmds_attributeQuery (_node s) (_attribute s);
      let d1 := if truthy _tempValue then <["value" := _tempValue]> _attrData
                else _attrData in
      let d2 := match a_minimum a with Some x => <["minimum" := x]> d1 | None => d1 end in
      let d3 := match a_maximum a with Some x => <["maximum" := x]> d2 | None => d2 end in
      let d4 := match a_softRange a with Some x => <["softRange" := x]> d3 | None => d3 end in
      mret d4 in
  match cls s with
  | BaseAttributeWidget => mret ∅
  | StringAttributeWidget =>
      let _attrData : pydict := <["value" := VStr ""]> ∅ in
      present ← cmds_objExists plug;
      if negb present then mret _attrData
      else v ← cmds_getAttr plug; mret (<["value" := v]> _attrData)
  | EnumAttributeWidget =>
      let _attrData : pydict := <["value" := VBool false]> ∅ in
      present ← cmds_objExists plug;
      if negb present then mret _attrData
      else
        a ← cmds_attributeQuery (_node s) (_attribute s);
        let _enumStrings := VList (VStr <$> str_split ":" (a_listEnum a) "") in
        v ← cmds_getAttr plug;
        mret (<["value" := v]> (<["enumStrings" := _enumStrings]> _attrData))
  | FloatNumericSimpleAttributeWidget | FloatNumericAttributeWidget =>
      numeric K_FLOAT_ATTR_DEFAULTS
  | IntegerNumericSimpleAttributeWidget | IntegerNumericAttributeWidget =>
      numeric K_INTEGER_ATTR_DEFAULTS
  | BoolAttributeWidget =>
      let _attrData : pydict := <["value" := VBool false]> ∅ in
      present ← cmds_objExists plug;
      if negb present then mret _attrData
      else v ← cmds_getAttr plug; mret (<["value" := v]> _attrData)
  end.

(** [_buildWidget]: the controls are created and given the default value;
    no listener is attached yet. *)
Definition _buildWidget : M unit :=
  s ← get_self;
  let defaults := _attributeDefaults s in
  let float_spin : M unit :=
    _val ← lift (dict_item defaults "value");
    modify_self (set_value _val) ;;
    modify_self (set_spinBox (VFloat 0)) ;;
    QSpinBox_setValue _val ;; mret () in
  let integer_spin : M pyval :=
    _val ← lift (v ← dict_item defaults "value"; py_int v);
    modify_self (set_value _val) ;;
    _min ← lift (r ← dict_item defaults "softRange"; x ← py_index r 0; py_int x);
    _max ← lift (r ← dict_item defaults "softRange"; x ← py_index r 1; py_int x);
    modify_self (set_spinBox (VInt 0)) ;;
    QSpinBox_setValue _val ;;
    mret _val in
  match cls s with
  | BaseAttributeWidget => mret ()
  | StringAttributeWidget =>
      _val ← lift (dict_item defaults "value");
      modify_self (set_value _val) ;;
      modify_self (set_lineEdit "") ;;
      QLineEdit_setText _val
  | EnumAttributeWidget =>
      _val ← lift (dict_item defaults "value");
      modify_self (set_value _val) ;;
      e ← lift (dict_item defaults "enumStrings");
      modify_self (set_enumValues e) ;;
      modify_self (set_comboBox (mkCombo [] (-1))) ;;
      QComboBox_addItems e ;;
      QComboBox_setCurrentIndex _val ;;
      mret ()
  | FloatNumericSimpleAttributeWidget => float_spin
  | FloatNumericAttributeWidget =>
      float_spin ;;
      _val ← lift (dict_item defaults "value");
      lo ← lift (x ← dict_item defaults "minimum"; py_mul x (float_of_Z K_FLOAT_WIDGET_FACTOR));
      hi ← lift (x ← dict_item defaults "maximum"; py_mul x (float_of_Z K_FLOAT_WIDGET_FACTOR));
      modify_self (set_slider (VInt 0)) ;;
      QSlider_setValue _val ;;
      mret ()
  | IntegerNumericSimpleAttributeWidget => integer_spin ;; mret ()
  | IntegerNumericAttributeWidget =>
      _val ← integer_spin;
      modify_self (set_slider (VInt 0)) ;;
      QSlider_setValue _val ;;
      mret ()
  | BoolAttributeWidget =>
      modify_self (set_checkBox false) ;;
      _val ← lift (dict_item defaults "value");
      modify_self (set_value _val)
  end.

(** [_setupSocketConnections]: the listeners are attached.  The float widget
    then moves its spin box off the default and back, the boolean widget
    sets its check box; both with the listener attached. *)
Definition _setupSocketConnections : M unit :=
  s ← get_self;
  match cls s with
  | FloatNumericAttributeWidget =>
      d ← lift (dict_item (_attributeDefaults s) "value");
      d1 ← lift (py_succ d);
      changed ← QSpinBox_setValue d1;
      (if changed : bool then slot (_spinBoxUpdated d1) else mret ()) ;;
      changed ← QSpinBox_setValue d;
      if changed : bool then slot (_spinBoxUpdated d) else mret ()
  | BoolAttributeWidget =>
      changed ← QCheckBox_setChecked (_value s);
      if changed : bool then slot _widgetUpdated else mret ()
  | _ => mret ()
  end.

(** Python's [not x] for an argument that is a string or [None]. *)
Definition absent (x : option string) : bool :=
  match x with
  | Some t => String.eqb t ""
  | None => true
  end.

(** [__init__(self, parent, node, attribute, attributeType, **kwargs)], run
    on the object being built.  The three [TypeError]s are those of the
    source, in its order. *)
Definition __init__ (node attribute attributeType : option string)
    (kwargs : pydict) : M unit :=
  s ← get_self;
  let c := cls s in
  let _enumValues0 :=
    if bool_decide (c = EnumAttributeWidget)
    then dict_get kwargs "enumStrings" (VList [])
    else _enumValues s in
  if absent node || absent attribute || absent attributeType then raise TypeError
  else
    let _node := default "" node in
    let _attribute := default "" attribute in
    let _plugString := _node +:+ "." +:+ _attribute in
    let _displayName := dict_get kwargs "displayName" VNone in
    ty ← cmds_getAttr_type (VStr _plugString);
    if negb (String.eqb ty (default "" attributeType)) then raise TypeError
    else
      let _attributeType := default "" attributeType in
      if negb (str_in _attributeType (VALID_ATTR_TYPES c)) then raise TypeError
      else
        modify_self (fun s =>
          mkWidget c _node _attribute _plugString _displayName _attributeType
            false ∅ (_value s) (_customIncrement s) [] [] ∅ _enumValues0
            (_lineEdit s) (_comboBox s) (_spinBox s) (_slider s) (_checkBox s)) ;;
        defaults ← _getAttributeInformation;
        modify_self (set_attributeDefaults defaults) ;;
        fallback ← lift (dict_item defaults "value");
        modify_self (set_value (dict_get kwargs "value" fallback)) ;;
        modify_self (set_customIncrement
                       (dict_get kwargs "increment" K_FLOAT_WIDGET_STEP_INCREMENT)) ;;
        _buildWidget ;;
        _setupSocketConnections.

(** An object before [__init__] has run. *)
Definition blank (c : WidgetClass) : Widget :=
  mkWidget c "" "" "" VNone "" false ∅ VNone VNone [] [] ∅ VNone
    "" (mkCombo [] (-1)) VNone VNone false.

(** [cls(parent, node, attribute, attributeType, **kwargs)]: the new widget,
    or the exception [__init__] raised, in which case there is no widget. *)
Definition new (c : WidgetClass) (node attribute attributeType : option string)
    (kwargs : pydict) (w : World) : outcome Widget * World :=
  match __init__ node attribute attributeType kwargs (mkSt w (blank c)) with
  | (Return _, st) => (Return (self st), world st)
  | (Raise e, st) => (Raise e, world st)
  end.

(** ** The factory *)

(** The widget classes, in the order the module defines them. *)
Definition classes : list WidgetClass :=
  [BaseAttributeWidget; StringAttributeWidget; EnumAttributeWidget;
   FloatNumericSimpleAttributeWidget; FloatNumericAttributeWidget;
   IntegerNumericSimpleAttributeWidget; IntegerNumericAttributeWidget;
   BoolAttributeWidget].

(** [cls.__subclasses__()]: the classes that name [cls] among their bases,
    oldest first. *)
Definition __subclasses__ (c : WidgetClass) : list WidgetClass :=
  filter (fun d => c ∈ bases d) classes.

(** [IS_SIMPLE], for the classes that have it ([hasattr] and [getattr] follow
    the method resolution order). *)
Definition IS_SIMPLE (c : WidgetClass) : option bool :=
  match c with
  | FloatNumericSimpleAttributeWidget | IntegerNumericSimpleAttributeWidget => Some true
  | FloatNumericAttributeWidget | IntegerNumericAttributeWidget => Some false
  | _ => None
  end.

(** The loop of [AttributeWidgetFactory] over the classes left to try. *)
Fixpoint factory_loop (node attribute : option string) (attributeType : string)
    (kwargs : pydict) (w : World) (l : list WidgetClass)
    : outcome (option Widget) * World :=
  match l with
  | [] => (Return None, w)
  | _attrClass :: l' =>
      let skip :=
        match IS_SIMPLE _attrClass with
        | Some _simpleValue =>
            _simpleValue && negb (truthy (dict_get kwargs "noLabel" (VBool false)))
        | None => false
        end in
      if skip then factory_loop node attribute attributeType kwargs w l'
      else if str_in attributeType (VALID_ATTR_TYPES _attrClass) then
        match new _attrClass node attribute (Some attributeType)
                (<["value" := dict_get kwargs "value" (VInt 0)]>
                 (<["displayName" := dict_get kwargs "displayName" (VStr "")]>
                 (<["noLabel" := dict_get kwargs "noLabel" (VBool false)]> ∅))) w with
        | (Return s, w') => (Return (Some s), w')
        | (Raise e, w') => (Raise e, w')
        end
      else factory_loop node attribute attributeType kwargs w l'
  end.

(** [AttributeWidgetFactory(parent, node, attribute, attributeType, **kwargs)]:
    the widget of the first class that takes the type, or [None]. *)
Definition AttributeWidgetFactory (node attribute attributeType : option string)
    (kwargs : pydict) (w : World) : outcome (option Widget) * World :=
  if absent attributeType then (Raise TypeError, w)
  else factory_loop node attribute (default "" attributeType) kwargs w
         (__subclasses__ BaseAttributeWidget).

(** ** Events *)

(** The user drags the slider to [val]. *)
Definition user_moves_slider (val : pyval) : M unit :=
  changed ← QSlider_setValue val;
  if changed : bool then slot (_sliderUpdated val) else mret ().

(** The user enters [val] in the spin box. *)
Definition user_edits_spinBox (val : pyval) : M unit :=
  changed ← QSpinBox_setValue val;
  if changed : bool then slot (_spinBoxUpdated val) else mret ().

(** The host delivers [n] dirty notifications in a row. *)
Definition host_dirty (n : nat) : M unit :=
  for_each (replicate n ()) (fun _ => _onDirtyPlug).

(** The host is idle: every callback scheduled with [evalDeferred] runs
    once; the host reports an exception raised by one and goes on. *)
Definition host_idle : M unit :=
  w ← get_world;
  modify_world (set_deferred 0) ;;
  for_each (replicate (deferred w) ()) (fun _ => slot _processDeferredUpdateRequest).

(** ** Running a computation *)

(** The state a computation leaves behind, whether it returned or raised. *)
Definition exec {A : Type} (m : M A) (st : St) : St := snd (m st).

(** Whether it returned. *)
Definition returns {A : Type} (m : M A) (st : St) : bool :=
  match fst (m st) with
  | Return _ => true
  | Raise _ => false
  end.

(** The session after [cls(...)] built a widget in scene [w]; the blank
    object stands in when construction raised. *)
Definition built (c : WidgetClass) (node attribute attributeType : string)
    (w : World) : St :=
  match new c (Some node) (Some attribute) (Some attributeType) ∅ w with
  | (Return s, w') => mkSt w' s
  | (Raise _, w') => mkSt w' (blank c)
  end.

(** The plug the widget's reads and writes go to: its own, or the target
    named by a non-empty override bundle; none when such a bundle names no
    target.  [_onGetAttr], [_onSetAttr] and [connectToNode] each begin with
    this resolution. *)
Definition effective_plug (s : Widget) : option pyval :=
  if dict_truthy (_sceneAttributeData s) then
    let target := dict_get (_sceneAttributeData s) K_OVR_PLUG_OVERRIDE_DATA_KEYS VNone in
    if truthy target then Some target else None
  else Some (VStr (_plugString s)).

(** The value the scene holds at a plug. *)
Definition scene_value (w : World) (p : pyval) : option pyval :=
  match p with
  | VStr name => a_value <$> attrs w !! name
  | _ => None
  end.

(** Modelled from the spec: [splitPlugString], which the module calls but
    does not define.  The comment on [getNodeFromPlugString] says that it
    splits a [node.plug] string and that the node is its first part. *)
Definition splitPlugString_at_dot (plugString : pyval) : outcome (list pyval) :=
  match plugString with
  | VStr t => Return (VStr <$> str_split "." t "")
  | _ => Raise TypeError
  end.

(** ** A sample scene *)

Definition ball_attrs : gmap string Attr :=
  <["ball.mode" := mkAttr "enum" (VInt 2) false None None None "low:mid:high"]>
  (<["ball.radius" := mkAttr "double" (VFloat 1) false (Some (VFloat 0)) None None ""]>
  (<["ball.visible" := mkAttr "bool" (VBool true) false None None None ""]>
  (<["ball.label" := mkAttr "string" (VStr "abc") false None None None ""]>
  (<["ball.count" := mkAttr "long" (VInt 3) false None None None ""]> ∅)))).

Definition ball_scene : World := mkWorld ball_attrs {["ball"]} [] 0 0 [] [] 0.

(** The scene after something other than the widgets set [ball.count], or
    [ball.visible], to [v]. *)
Definition count_set_to (v : pyval) (w : World) : World :=
  set_attrs (<["ball.count" := mkAttr "long" v false None None None ""]> (attrs w)) w.

Definition visible_set_to (v : pyval) (w : World) : World :=
  set_attrs (<["ball.visible" := mkAttr "bool" v false None None None ""]> (attrs w)) w.

(** Widgets built on the sample scene, not connected. *)
Definition enum_widget : St :=
  built EnumAttributeWidget "ball" "mode" "enum" ball_scene.

Definition bool_widget : St :=
  built BoolAttributeWidget "ball" "visible" "bool" ball_scene.

Definition float_widget : St :=
  built FloatNumericAttributeWidget "ball" "radius" "double" ball_scene.

Definition count_widget : St :=
  built IntegerNumericAttributeWidget "ball" "count" "long" ball_scene.

(** The integer and the float widget after [connectToNode()]. *)
Definition count_widget_live : St :=
  exec (connectToNode splitPlugString_at_dot false) count_widget.

Definition float_widget_live : St :=
  exec (connectToNode splitPlugString_at_dot false) float_widget.

(** A boolean widget built while [ball.visible] was [False], after
    [connectToNode()]. *)
Definition bool_widget_live : St :=
  exec (connectToNode splitPlugString_at_dot false)
       (built BoolAttributeWidget "ball" "visible" "bool"
              (visible_set_to (VBool false) ball_scene)).

(** The connected integer widget after [pushInData({'value': 4})]: its
    override bundle is not empty and names no target. *)
Definition count_widget_pushed : St :=
  exec (pushInData (<["value" := VInt 4]> ∅)) count_widget_live.

(** The bundle stolen from the integer widget. *)
Definition count_bundle : pydict :=
  match fst (stealMyData count_widget) with
  | Return bundle => bundle
  | Raise _ => ∅
  end.

(** ** Notions the properties are stated with *)

(** A computation that touches the host only. *)
Definition keeps_self {A : Type} (m : M A) : Prop :=
  forall st, self (snd (m st)) = self st.

(** A value the controls of the class take: text for the line edit, a
    number for a spin box and a slider, a boolean for the check box. *)
Definition fits (c : WidgetClass) (v : pyval) : bool :=
  match c with
  | BaseAttributeWidget | EnumAttributeWidget => true
  | StringAttributeWidget => match v with VStr _ => true | _ => false end
  | BoolAttributeWidget => match v with VBool _ => true | _ => false end
  | _ => match as_num v with Some _ => true | None => false end
  end.

(** The slider of the two-control float widget shows a number. *)
Definition slider_shows_number (s : Widget) : bool :=
  match cls s with
  | FloatNumericAttributeWidget =>
      match as_num (_slider s) with Some _ => true | None => false end
  | _ => true
  end.

(** The widget without what its controls show. *)
Definition without_display (s : Widget) : Widget :=
  set_lineEdit "" (set_comboBox (mkCombo [] (-1))
    (set_spinBox VNone (set_slider VNone (set_checkBox false s)))).

(** The host after one more [valueChanged]. *)
Definition emitted_once (w : World) : World :=
  set_valueChanged_count (S (valueChanged_count w)) w.

(** The scene with one more read on record. *)
Definition logged (p : pyval) (w : World) : World :=
  set_getAttr_log (getAttr_log w ++ [p]) w.

(** The host after the wrappers in [l] were deleted. *)
Definition released (l : list MCallbackIdWrapper) (w : World) : World :=
  fold_left (fun w c => set_callbacks (filter (fun i => i ≠ callbackId c) (callbacks w)) w)
            l w.

(** The properties every class inherits from [BaseAttributeWidget], as
    [_getAllProperties] lists them. *)
Definition base_props : list string :=
  ["node"; "attribute"; "attributeType"; "isConnected"; "plugString"; "value"].

(** ** Notions the further properties are stated with *)

(** *** Views of a widget *)

(** The widget without its cached value and without what its controls show:
    what is left is its class, its plug and type, its connection state, its
    defaults and increment, the pending markers, the wrappers, the override
    bundle and the option list. *)
Definition bookkeeping (s : Widget) : Widget := set_value VNone (without_display s).

(** What binds a widget to the scene: its class, its plug and type, its
    connection state, the pending markers, the wrappers and the override
    bundle. *)
Definition binding (s : Widget) :=
  (cls s, _node s, _attribute s, _plugString s, _attributeType s, _isConnected s,
   _deferredUpdateRequest s, _nodeCallbacks s, _sceneAttributeData s).

(** The widget without its cached value and its option list. *)
Definition unvalued (s : Widget) : Widget := set_value VNone (set_enumValues VNone s).

(** What [_widgetUpdated] takes for the value: the text of the line edit,
    the current row of the combo box, the state of the check box; the
    numeric widgets' slots have cached the value before they call it. *)
Definition displayed (s : Widget) : pyval :=
  match cls s with
  | StringAttributeWidget => VStr (_lineEdit s)
  | EnumAttributeWidget => VInt (currentIndex (_comboBox s))
  | BoolAttributeWidget => VBool (_checkBox s)
  | _ => _value s
  end.

(** The [type] argument [_onSetAttr] passes to [setAttr]. *)
Definition setAttr_type (s : Widget) : option string :=
  if String.eqb (_attributeType s) "string" then Some (_attributeType s) else None.

(** The default value a widget of class [c] captures from a plug that holds
    [v]: the numeric widgets keep the default of their class when [v] is
    falsy. *)
Definition captured (c : WidgetClass) (v : pyval) : pyval :=
  match c with
  | FloatNumericSimpleAttributeWidget | FloatNumericAttributeWidget =>
      if truthy v then v else VFloat 0
  | IntegerNumericSimpleAttributeWidget | IntegerNumericAttributeWidget =>
      if truthy v then v else VInt 0
  | _ => v
  end.

(** *** Views of the host *)

(** The host without the count of [valueChanged] emissions: the scene, the
    registered callbacks, the scheduled idle callbacks, the reads and the
    writes on record. *)
Definition behind_the_signal (w : World) : World := set_valueChanged_count 0 w.

(** The host without the reads on record and the count of emissions. *)
Definition behind_the_reads (w : World) : World :=
  set_getAttr_log [] (set_valueChanged_count 0 w).

(** The callbacks the host holds, the id it gives to the next one, and the
    number of idle callbacks it has scheduled. *)
Definition registry (w : World) : list nat * nat * nat :=
  (callbacks w, next_callback w, deferred w).

(** The attributes of the scene after [setAttr] was asked to put [v] at the
    plug [name]: the value is there if the plug exists and the host accepted
    it, and nothing changed otherwise. *)
Definition written (name : string) (v : pyval) (ty : option string) (w : World)
    : gmap string Attr :=
  match attrs w !! name with
  | Some a =>
      if host_accepts a ty v
      then <[name := mkAttr (a_type a) v (a_locked a) (a_minimum a)
                       (a_maximum a) (a_softRange a) (a_listEnum a)]> (attrs w)
      else attrs w
  | None => attrs w
  end.

(** *** Views of a session *)

(** What of a session neither the cached value, nor the display, nor the
    signal count, nor the reads and writes on record are part of: the
    widget's bookkeeping and the host's callbacks. *)
Definition frame (st : St) : Widget * (list nat * nat * nat) :=
  (bookkeeping (self st), registry (world st)).

(** The host of a session, without the count of emissions. *)
Definition backstage (st : St) : World := behind_the_signal (world st).

(** The binding, and the host without the reads on record and the count of
    emissions. *)
Definition setting (st : St) := (binding (self st), behind_the_reads (world st)).

(** The defaults a widget holds, and its plug. *)
Definition defaults_of (st : St) : pydict * string :=
  (_attributeDefaults (self st), _plugString (self st)).

(** Whether the widget is connected, the wrappers it holds, and the id the
    host gives to the next callback it registers. *)
Definition subscription (st : St) : bool * list MCallbackIdWrapper * nat :=
  (_isConnected (self st), _nodeCallbacks (self st), next_callback (world st)).

(** *** Conditions on a session *)

(** No condition. *)
Definition always (st : St) : Prop := True.

(** The widget is not connected. *)
Definition offline (st : St) : Prop := _isConnected (self st) = false.

(** The widget resolves to no plug: its override bundle is not empty and
    names no target. *)
Definition unlinked (st : St) : Prop := effective_plug (self st) = None.

(** *** What a computation leaves alone *)

(** [m] keeps the condition [I] and leaves the view [f] as it was, whether
    it returns or raises. *)
Definition steady {A B : Type} (I : St -> Prop) (f : St -> B) (m : M A) : Prop :=
  forall st, I st -> I (snd (m st)) /\ f (snd (m st)) = f st.

(** [m] neither looks at the widget nor changes it: run on two widgets in
    the same host it has the same outcome and leaves the same host. *)
Definition blind {A : Type} (m : M A) : Prop :=
  forall w s s', exists o w1,
    m (mkSt w s) = (o, mkSt w1 s) /\ m (mkSt w s') = (o, mkSt w1 s').

(** *** What a client does to a widget short of connecting it *)

(** Assigning [value], pushing a bundle in, resetting, and the user's edits
    of the two numeric controls. *)
Inductive edit : Type :=
| Assign (val : pyval)
| PushIn (data : pydict)
| ResetToDefault
| MoveSlider (val : pyval)
| EditSpinBox (val : pyval).

Definition perform (e : edit) : M unit :=
  match e with
  | Assign val => value_setter val
  | PushIn data => pushInData data
  | ResetToDefault => resetToDefaultValue
  | MoveSlider val => user_moves_slider val
  | EditSpinBox val => user_edits_spinBox val
  end.

(** *** The factory's choice *)

(** The class the factory settles on for a type, read off the class
    constants: the two-control numeric widgets unless [noLabel] is set. *)
Definition factory_choice (attributeType : string) (noLabel : bool) : option WidgetClass :=
  if str_in attributeType (VALID_ATTR_TYPES StringAttributeWidget)
  then Some StringAttributeWidget
  else if str_in attributeType (VALID_ATTR_TYPES EnumAttributeWidget)
  then Some EnumAttributeWidget
  else if str_in attributeType (VALID_ATTR_TYPES FloatNumericAttributeWidget)
  then Some (if noLabel then FloatNumericSimpleAttributeWidget
             else FloatNumericAttributeWidget)
  else if str_in attributeType (VALID_ATTR_TYPES IntegerNumericAttributeWidget)
  then Some (if noLabel then IntegerNumericSimpleAttributeWidget
             else IntegerNumericAttributeWidget)
  else if str_in attributeType (VALID_ATTR_TYPES BoolAttributeWidget)
  then Some BoolAttributeWidget
  else None.

(** *** What the control of a widget shows *)

(** The text of the line edit, the row of the combo box, the state of the
    check box, the number in the spin box. *)
Definition on_display (s : Widget) : pyval :=
  match cls s with
  | BaseAttributeWidget => _value s
  | StringAttributeWidget => VStr (_lineEdit s)
  | EnumAttributeWidget => VInt (currentIndex (_comboBox s))
  | BoolAttributeWidget => VBool (_checkBox s)
  | _ => _spinBox s
  end.

(** * Properties *)

Ltac munfold :=
  unfold mbind, mret, M_bind, M_ret, outcome_bind, outcome_ret, lift, raise,
    get_self, get_world, modify_self, modify_world, try_except in *.

(** ** What leaves the widget alone *)

Lemma keeps_ret {A : Type} (a : A) : keeps_self (mret a).
Proof. intros st. reflexivity. Qed.

Lemma keeps_raise {A : Type} (e : exn) : keeps_self (@raise A e).
Proof. intros st. reflexivity. Qed.

Lemma keeps_lift {A : Type} (o : outcome A) : keeps_self (lift o).
Proof. intros st. reflexivity. Qed.

Lemma keeps_get_world : keeps_self get_world.
Proof. intros st. reflexivity. Qed.

Lemma keeps_get_self : keeps_self get_self.
Proof. intros st. reflexivity. Qed.

Lemma keeps_modify_world (f : World -> World) : keeps_self (modify_world f).
Proof. intros st. reflexivity. Qed.

Lemma keeps_bind {A B : Type} (m : M A) (f : A -> M B) :
  keeps_self m -> (forall a, keeps_self (f a)) -> keeps_self (m ≫= f).
Proof.
  intros Hm Hf st. unfold mbind, M_bind. specialize (Hm st).
  destruct (m st) as [[a|e] st']; simpl in *; [|assumption].
  rewrite Hf. assumption.
Qed.

Lemma keeps_try_except {A : Type} (m h : M A) :
  keeps_self m -> keeps_self h -> keeps_self (try_except m h).
Proof.
  intros Hm Hh st. unfold try_except. specialize (Hm st).
  destruct (m st) as [[a|e] st']; simpl in *; [assumption|].
  rewrite Hh. assumption.
Qed.

Create HintDb keeps.

#[local] Hint Resolve keeps_ret keeps_raise keeps_lift keeps_get_world
  keeps_get_self keeps_modify_world : keeps.

(** Takes a computation apart along its binds and branches. *)
Ltac keeps :=
  repeat first
    [ solve [auto with keeps nocore]
    | lazymatch goal with
      | |- keeps_self (mbind _ _) => apply keeps_bind
      | |- keeps_self (try_except _ _) => apply keeps_try_except
      | |- forall _, _ => intro
      end
    | case_match
    | progress cbv beta zeta ].

Lemma keeps_plug_name (p : pyval) : keeps_self (plug_name p).
Proof. unfold plug_name. keeps. Qed.

#[local] Hint Resolve keeps_plug_name : keeps.

Lemma keeps_cmds_getAttr (p : pyval) : keeps_self (cmds_getAttr p).
Proof. unfold cmds_getAttr. keeps. Qed.

Lemma keeps_cmds_setAttr (p v : pyval) (ty : option string) :
  keeps_self (cmds_setAttr p v ty).
Proof. unfold cmds_setAttr. keeps. Qed.

Lemma keeps_valueChanged_emit : keeps_self valueChanged_emit.
Proof. unfold valueChanged_emit. keeps. Qed.

#[local] Hint Resolve keeps_cmds_getAttr keeps_cmds_setAttr
  keeps_valueChanged_emit : keeps.

Lemma keeps__onSetAttr (force : bool) : keeps_self (_onSetAttr force).
Proof. unfold _onSetAttr. keeps. Qed.

(** ** Dictionaries *)

Lemma truthy_dict_item (d : pydict) (k : string) :
  truthy (dict_get d k VNone) = true ->
  dict_item d k = Return (dict_get d k VNone).
Proof.
  unfold dict_get, dict_item. destruct (d !! k); simpl; [reflexivity | discriminate].
Qed.

Lemma dict_truthy_insert (d : pydict) (k : string) (v : pyval) :
  dict_truthy (<[k := v]> d) = true.
Proof.
  unfold dict_truthy. destruct (map_to_list (<[k := v]> d)) eqn:E; [|reflexivity].
  apply map_to_list_empty_iff in E. destruct (insert_non_empty d k v E).
Qed.

Lemma dict_falsy_empty (d : pydict) : dict_truthy d = false -> d = ∅.
Proof.
  unfold dict_truthy. destruct (map_to_list d) eqn:E; [|discriminate].
  intros _. apply map_to_list_empty_iff. exact E.
Qed.

Lemma dict_truthy_lookup (d : pydict) (k : string) (v : pyval) :
  d !! k = Some v -> dict_truthy d = true.
Proof.
  intros H. destruct (dict_truthy d) eqn:E; [reflexivity|].
  rewrite (dict_falsy_empty d E) in H. rewrite lookup_empty in H. discriminate.
Qed.

(** ** The host's commands *)

Lemma cmds_getAttr_reads (w : World) (s : Widget) (p v : pyval) :
  scene_value w p = Some v ->
  cmds_getAttr p (mkSt w s) = (Return v, mkSt (logged p w) s).
Proof.
  intros Hv. destruct p as [| | | |name|]; simpl in Hv; try discriminate.
  unfold cmds_getAttr, plug_name. munfold. simpl.
  destruct (attrs w !! name) as [a|]; simpl in Hv; [|discriminate].
  injection Hv as <-. reflexivity.
Qed.

Lemma for_each_skip {A : Type} (l : list A) (st : St) :
  for_each l (fun _ => mret ()) st = (Return (), st).
Proof.
  induction l as [|x l IH]; simpl; [reflexivity|]. munfold. exact IH.
Qed.

Lemma for_each_del (l : list MCallbackIdWrapper) (w : World) (s : Widget) :
  for_each l MCallbackIdWrapper_del (mkSt w s) = (Return (), mkSt (released l w) s).
Proof.
  revert w. induction l as [|c l IH]; intros w; [reflexivity|].
  simpl. munfold. unfold MCallbackIdWrapper_del at 1. munfold. simpl. apply IH.
Qed.

(** ** Writing through *)

Lemma _onSetAttr_disconnected (st : St) :
  _isConnected (self st) = false -> _onSetAttr false st = (Return (), st).
Proof.
  intros H. unfold _onSetAttr. munfold. rewrite H. reflexivity.
Qed.

(** The write [_onSetAttr] makes for a connected widget whose plug resolves
    and whose own plug exists: one read of the own plug, one [setAttr] of
    the cached value on the resolved plug, and no exception whatever the
    scene does with the write. *)
Lemma _onSetAttr_writes (w : World) (s : Widget) (p : pyval) :
  _isConnected s = true ->
  effective_plug s = Some p ->
  is_Some (attrs w !! _plugString s) ->
  exists w',
    _onSetAttr false (mkSt w s) = (Return (), mkSt w' s) /\
    setAttr_log w' = setAttr_log w ++ [(p, _value s)] /\
    valueChanged_count w' = valueChanged_count w.
Proof.
  intros Hc Hp [a Ha].
  assert (Hset : forall ty w0,
            exists w',
              try_except (cmds_setAttr p (_value s) ty) (mret ()) (mkSt w0 s)
              = (Return (), mkSt w' s) /\
              setAttr_log w' = setAttr_log w0 ++ [(p, _value s)] /\
              valueChanged_count w' = valueChanged_count w0).
  { intros ty w0. unfold cmds_setAttr, plug_name. munfold. simpl.
    destruct p; simpl; try (eexists; repeat split; reflexivity).
    destruct (attrs w0 !! s0) as [a0|]; simpl; [|eexists; repeat split; reflexivity].
    destruct (host_accepts a0 ty (_value s)); eexists; repeat split; reflexivity. }
  assert (Hread : cmds_getAttr (VStr (_plugString s)) (mkSt w s)
                  = (Return (a_value a), mkSt (logged (VStr (_plugString s)) w) s)).
  { apply cmds_getAttr_reads. simpl. rewrite Ha. reflexivity. }
  unfold effective_plug in Hp. unfold _onSetAttr.
  unfold mbind, M_bind, lift, get_self. simpl. rewrite Hc. simpl.
  destruct (dict_truthy (_sceneAttributeData s)).
  - destruct (truthy (dict_get _ _ _)) eqn:Ht; [|discriminate].
    injection Hp as <-. simpl. rewrite (truthy_dict_item _ _ Ht), Hread.
    destruct (String.eqb _ _);
      match goal with |- context [try_except (cmds_setAttr _ _ ?ty) _ (mkSt ?w0 _)] =>
        destruct (Hset ty w0) as (w' & Hw & Hlog & Hcount) end;
      rewrite Hw; exists w'; repeat split; assumption.
  - injection Hp as <-. rewrite Hread.
    destruct (String.eqb _ _);
      match goal with |- context [try_except (cmds_setAttr _ _ ?ty) _ (mkSt ?w0 _)] =>
        destruct (Hset ty w0) as (w' & Hw & Hlog & Hcount) end;
      rewrite Hw; exists w'; repeat split; assumption.
Qed.

(** ** The display refresh *)

Lemma slot__widgetUpdated_bool (st : St) :
  cls (self st) = BoolAttributeWidget ->
  exists w', slot _widgetUpdated st
             = (Return (), mkSt w' (set_value (VBool (_checkBox (self st))) (self st))).
Proof.
  intros Hc. destruct st as [w s]. simpl in *.
  unfold slot, try_except, _widgetUpdated. munfold. simpl. rewrite Hc. simpl.
  pose proof (keeps__onSetAttr false (mkSt w (set_value (VBool (_checkBox s)) s))) as K.
  destruct (_onSetAttr false _) as [[[]|e] [w1 s1]]; simpl in K; subst s1.
  - eexists. reflexivity.
  - eexists. reflexivity.
Qed.

Ltac finish_refresh :=
  eexists; split; [reflexivity|]; simpl; repeat split; auto; try congruence.

(** For a value the controls take, [_updateWidgetValues] returns and
    changes nothing of the widget but what its controls show; unless the
    widget is the boolean one, all it does to the host is to emit
    [valueChanged] once. *)
Lemma _updateWidgetValues_returns (st : St) :
  fits (cls (self st)) (_value (self st)) = true ->
  slider_shows_number (self st) = true ->
  exists st',
    _updateWidgetValues st = (Return (), st') /\
    without_display (self st') = without_display (self st) /\
    slider_shows_number (self st') = true /\
    (cls (self st) <> BoolAttributeWidget -> world st' = emitted_once (world st)).
Proof.
  destruct st as [w s]. unfold slider_shows_number.
  destruct s as [c node attribute plug name ty conn dflt v inc pend cbs data ev
                 line combo spin slide check].
  simpl. intros Hfit Hsl.
  unfold _updateWidgetValues, _silentSpinBoxUpdate, _silentSliderUpdate,
    QSpinBox_setValue, QSlider_setValue, QLineEdit_setText, QCheckBox_setChecked,
    py_div, py_mul, as_float.
  destruct c; munfold; simpl in *.
  - finish_refresh.
  - destruct v; try discriminate. destruct (py_ne _ _); finish_refresh.
  - finish_refresh.
  - destruct (as_num v) eqn:Hn; [|discriminate].
    destruct (py_ne _ _); simpl; rewrite ?Hn; finish_refresh.
  - destruct (as_num v) as [nv|] eqn:Hn; [|discriminate].
    destruct (as_num slide) as [ns|] eqn:Hs; [|discriminate].
    destruct (py_ne v spin); simpl; rewrite ?Hn, ?Hs; simpl.
    all: destruct nv, ns; simpl; destruct (py_ne _ _); simpl; finish_refresh;
      rewrite Hs; reflexivity.
  - destruct (as_num v) eqn:Hn; [|discriminate].
    destruct (py_ne _ _); simpl; rewrite ?Hn; finish_refresh.
  - destruct (as_num v) as [nv|] eqn:Hn; [|discriminate].
    destruct (py_ne v spin); simpl; rewrite ?Hn; simpl.
    all: destruct (py_ne v slide); simpl; rewrite ?Hn; finish_refresh.
  - destruct v as [| b | | | |]; try discriminate. simpl.
    destruct (negb (Bool.eqb check b)); simpl.
    + match goal with |- context [slot _widgetUpdated ?st] =>
        destruct (slot__widgetUpdated_bool st eq_refl) as [w' ->] end.
      simpl. finish_refresh.
    + finish_refresh.
Qed.

Lemma value_without_display (s s' : Widget) :
  without_display s' = without_display s -> _value s' = _value s.
Proof. intros H. apply (f_equal _value) in H. exact H. Qed.

(** Assigning [value] on a widget that is not connected. *)
Lemma value_setter_disconnected (w : World) (b : Widget) (v : pyval) :
  _isConnected b = false ->
  fits (cls b) v = true ->
  slider_shows_number b = true ->
  exists st',
    value_setter v (mkSt w b) = (Return (), st') /\
    without_display (self st') = without_display (set_value v b).
Proof.
  intros Hc Hfit Hsl. unfold value_setter. munfold. cbn [self world].
  rewrite _onSetAttr_disconnected by exact Hc.
  destruct (_updateWidgetValues_returns (mkSt w (set_value v b)))
    as (st' & -> & Hsame & _ & _); [exact Hfit | exact Hsl |].
  exists st'. split; [reflexivity | exact Hsame].
Qed.

(** ** Reading through *)

Lemma _onGetAttr_disconnected (st : St) :
  _isConnected (self st) = false -> _onGetAttr st = (Return VNone, st).
Proof.
  intros H. unfold _onGetAttr. munfold. rewrite H. reflexivity.
Qed.

(** What [_onGetAttr] does for a connected widget whose plug resolves and
    exists: one read, and for a truthy value the adoption and the refresh. *)
Lemma _onGetAttr_reads (w : World) (s : Widget) (p v : pyval) :
  _isConnected s = true ->
  effective_plug s = Some p ->
  scene_value w p = Some v ->
  _onGetAttr (mkSt w s)
  = if truthy v
    then match _updateWidgetValues (mkSt (logged p w) (set_value v s)) with
         | (Return _, st') => (Return v, st')
         | (Raise e, st') => (Raise e, st')
         end
    else (Return VNone, mkSt (logged p w) s).
Proof.
  intros Hc Hp Hv. pose proof (cmds_getAttr_reads w s p v Hv) as Hread.
  unfold effective_plug in Hp. unfold _onGetAttr. munfold. simpl. rewrite Hc. simpl.
  destruct (dict_truthy (_sceneAttributeData s)).
  - destruct (truthy (dict_get _ _ _)) eqn:Ht; [|discriminate].
    injection Hp as <-. simpl. rewrite (truthy_dict_item _ _ Ht), Hread.
    destruct (truthy v); simpl; [|reflexivity].
    destruct (_updateWidgetValues _) as [[[]|e] st']; reflexivity.
  - injection Hp as <-. rewrite Hread.
    destruct (truthy v); simpl; [|reflexivity].
    destruct (_updateWidgetValues _) as [[[]|e] st']; reflexivity.
Qed.

(** ** Connecting *)

(** [connectToNode(pull=True)] on an enumeration widget that is not
    connected: if the widget ends connected, its value is [None]. *)
Lemma connectToNode_pull_enum (splitPlugString : pyval -> outcome (list pyval))
    (w : World) (s : Widget) :
  cls s = EnumAttributeWidget ->
  _isConnected s = false ->
  _isConnected (self (exec (connectToNode splitPlugString true) (mkSt w s))) = true ->
  value (self (exec (connectToNode splitPlugString true) (mkSt w s))) = VNone.
Proof.
  intros Hcls Hc. unfold exec, connectToNode. munfold. cbn [self].
  rewrite for_each_del, Hc. cbv zeta.
  assert (Hno : false = true -> value s = VNone) by discriminate.
  destruct (dict_truthy (_sceneAttributeData s));
    [destruct (negb (truthy _)); [simpl; rewrite Hc; exact Hno|];
     destruct (dict_item _ _) as [target|e]; [|simpl; rewrite Hc; exact Hno];
     destruct target; try (simpl; rewrite Hc; exact Hno) |].
  all: unfold cmds_objExists, plug_name; munfold; cbn [self world].
  all: destruct (bool_decide (is_Some _)); cbn [negb]; [|simpl; rewrite Hc; exact Hno].
  all: destruct (negb (str_in _ _)); [simpl; rewrite Hc; exact Hno|].
  all: rewrite _onGetAttr_disconnected by exact Hc.
  all: unfold value_setter; munfold; cbn [self world].
  all: rewrite _onSetAttr_disconnected by exact Hc.
  all: unfold _updateWidgetValues, valueChanged_emit; munfold;
       cbn [self world cls set_value set_deferredUpdateRequest set_nodeCallbacks].
  all: rewrite Hcls.
  all: unfold _getDependNode, addNodeDirtyPlugCallback; munfold.
  all: destruct (getNodeFromPlugString _ _); simpl; try (rewrite Hc; exact Hno).
  all: try match goal with |- context [@bool_decide ?P ?d] =>
         destruct (@bool_decide P d) end;
       simpl; try (rewrite Hc; exact Hno); reflexivity.
Qed.

(** C1 (defect in the code): the enumeration widget of the sample scene,
    whose plug holds [2], is connected with [connectToNode(pull=True)].  The
    call returns and the widget is connected, but its value is [None] and
    not the scene's [2]: [_onGetAttr] is asked for the value while
    [_isConnected] is still false, returns [None] without reading, and the
    [None] is assigned to [value]. *)
Theorem C1_pull_connect_caches_None :
  let connect := connectToNode splitPlugString_at_dot true in
  returns connect enum_widget = true /\
  _isConnected (self (exec connect enum_widget)) = true /\
  effective_plug (self enum_widget) = Some (VStr "ball.mode") /\
  scene_value (world enum_widget) (VStr "ball.mode") = Some (VInt 2) /\
  scene_value (world (exec connect enum_widget)) (VStr "ball.mode") = Some (VInt 2) /\
  value (self (exec connect enum_widget)) = VNone.
Proof. repeat split; vm_compute; reflexivity. Qed.

(** [connectToNode] on a connected widget: both lists are emptied, the
    wrappers deleted, and nothing else happens. *)
Lemma connectToNode_when_connected (splitPlugString : pyval -> outcome (list pyval))
    (pull : bool) (w : World) (s : Widget) :
  _isConnected s = true ->
  connectToNode splitPlugString pull (mkSt w s)
  = (Return (),
     mkSt (released (_nodeCallbacks s) w)
          (set_deferredUpdateRequest [] (set_nodeCallbacks [] s))).
Proof.
  intros Hc. unfold connectToNode. munfold. cbn [self].
  rewrite for_each_del, Hc. reflexivity.
Qed.

(** C3 (defect in the code): the connected integer widget of the sample
    scene holds one callback wrapper and, after three dirty notifications,
    three pending markers.  A second [connectToNode], with either value of
    [pull], leaves it marked connected but empties both lists before it
    looks at [_isConnected]; the wrapper is deleted with the list, so the
    host has no callback of the widget any more. *)
Theorem C3_reconnect_drops_subscription (pull : bool) :
  let before := exec (host_dirty 3) count_widget_live in
  let after := exec (connectToNode splitPlugString_at_dot pull) before in
  (_isConnected (self before) = true /\
   _nodeCallbacks (self before) = [mkWrapper 0] /\
   _deferredUpdateRequest (self before) = [true; true; true] /\
   callbacks (world before) = [0%nat]) /\
  (_isConnected (self after) = true /\
   _nodeCallbacks (self after) = [] /\
   _deferredUpdateRequest (self after) = [] /\
   callbacks (world after) = []) /\
  self after <> self before.
Proof.
  destruct pull; (repeat split; try (vm_compute; reflexivity));
    intros H; apply (f_equal _nodeCallbacks) in H; vm_compute in H; discriminate.
Qed.

(** ** Disconnecting *)




(** The subscription, which the theorem above is silent about: after
    [disConnectFromNode] the widget still holds its wrapper, and the host
    the callback. *)
Lemma disconnect_keeps_the_wrapper :
  let after := exec disConnectFromNode count_widget_live in
  _isConnected (self after) = false /\
  _nodeCallbacks (self after) = [mkWrapper 0] /\
  callbacks (world after) = [0%nat].
Proof. repeat split; vm_compute; reflexivity. Qed.

(** ** Dirty notifications and the idle callback *)

Lemma _onDirtyPlug_spec (w : World) (s : Widget) :
  _onDirtyPlug (mkSt w s)
  = (Return (),
     mkSt (match _deferredUpdateRequest s with
           | [] => set_deferred (S (deferred w)) w
           | _ => w
           end)
          (set_deferredUpdateRequest (_deferredUpdateRequest s ++ [true]) s)).
Proof.
  unfold _onDirtyPlug, cmds_evalDeferred. munfold. simpl.
  destruct (_deferredUpdateRequest s) as [|b [|b' l]]; reflexivity.
Qed.

(** Further notifications only add markers. *)
Lemma host_dirty_pending (n : nat) (w : World) (s : Widget) :
  _deferredUpdateRequest s <> [] ->
  host_dirty n (mkSt w s)
  = (Return (),
     mkSt w (match n with
             | O => s
             | S _ => set_deferredUpdateRequest
                        (_deferredUpdateRequest s ++ replicate n true) s
             end)).
Proof.
  revert s. induction n as [|n IH]; intros s Hne; [reflexivity|].
  unfold host_dirty in *. simpl. munfold. rewrite _onDirtyPlug_spec.
  destruct (_deferredUpdateRequest s) as [|b l] eqn:Hl; [contradiction|].
  rewrite IH by (simpl; discriminate).
  destruct n; simpl; rewrite ?Hl; [reflexivity|].
  rewrite <- app_assoc. reflexivity.
Qed.

(** A burst of notifications to an idle widget schedules one callback. *)
Lemma host_dirty_idle (n : nat) (w : World) (s : Widget) :
  (1 <= n)%nat ->
  _deferredUpdateRequest s = [] ->
  host_dirty n (mkSt w s)
  = (Return (),
     mkSt (set_deferred (S (deferred w)) w)
          (set_deferredUpdateRequest (replicate n true) s)).
Proof.
  intros Hn Hl. destruct n as [|n]; [lia|].
  unfold host_dirty. simpl. munfold. rewrite _onDirtyPlug_spec, Hl. simpl.
  pose proof (host_dirty_pending n (set_deferred (S (deferred w)) w)
                (set_deferredUpdateRequest [true] s)) as H.
  unfold host_dirty in H. rewrite H by (simpl; discriminate).
  destruct n; reflexivity.
Qed.




(** The boolean widget is different: when the scene's [True] reaches its
    unchecked check box, the refresh re-enters [_widgetUpdated], whose
    [_onSetAttr] reads the plug again and writes the value back. *)
Lemma bool_refresh_reads_twice :
  let w := visible_set_to (VBool true) (world bool_widget_live) in
  let st2 := exec host_idle (exec (host_dirty 2) (mkSt w (self bool_widget_live))) in
  getAttr_log (world st2)
  = getAttr_log w ++ [VStr "ball.visible"; VStr "ball.visible"] /\
  setAttr_log (world st2) = setAttr_log w ++ [(VStr "ball.visible", VBool true)] /\
  _checkBox (self st2) = true.
Proof. repeat split; vm_compute; reflexivity. Qed.

(** ** Construction *)

(** C5: for every widget class, the constructor raises [TypeError] when
    [node], [attribute] or [attributeType] is absent ([None] or empty), and
    when the scene reports for the plug a type other than the declared one.
    The result is then the exception and no widget, and the scene is as it
    was. *)
Theorem C5_constructor_rejects (c : WidgetClass)
    (node attribute attributeType : option string) (kwargs : pydict) (w : World) :
  (absent node = true \/ absent attribute = true \/ absent attributeType = true) \/
  (exists n a t k,
     node = Some n /\ attribute = Some a /\ attributeType = Some t /\
     attrs w !! (n +:+ "." +:+ a) = Some k /\ a_type k <> t) ->
  new c node attribute attributeType kwargs w = (Raise TypeError, w).
Proof.
  intros H. unfold new, __init__. munfold. simpl.
  destruct (absent node || absent attribute || absent attributeType) eqn:Hab;
    [reflexivity|].
  destruct H as [H | (n & a & t & k & -> & -> & -> & Hk & Hne)].
  - exfalso. destruct H as [H | [H | H]]; rewrite H in Hab;
      rewrite ?orb_true_r in Hab; discriminate.
  - unfold cmds_getAttr_type, plug_name. munfold. simpl. rewrite Hk. simpl.
    destruct (String.eqb_spec (a_type k) t) as [E|E]; [contradiction|reflexivity].
Qed.

(** C5 at work: a [long] plug declared [double], and a missing attribute
    name. *)
Lemma C5_constructor_rejects_witness :
  new IntegerNumericAttributeWidget (Some "ball") (Some "count") (Some "double") ∅ ball_scene
  = (Raise TypeError, ball_scene)
  /\ new BoolAttributeWidget (Some "ball") None (Some "bool") ∅ ball_scene
     = (Raise TypeError, ball_scene).
Proof.
  split.
  - apply C5_constructor_rejects. right.
    exists "ball", "count", "double", (mkAttr "long" (VInt 3) false None None None "").
    repeat split; try reflexivity. simpl. discriminate.
  - apply C5_constructor_rejects. left. right. left. reflexivity.
Defined.

(** ** The display after a refresh *)

(** C6 (defect in the code): the combo box of the enumeration widget of the
    sample scene shows row [2].  After [value = 0] the cached value is [0]
    and the combo box still shows row [2]: the widget's
    [_updateWidgetValues] names [self._silentUpdateSelf] and does not call
    it. *)
Theorem C6_enum_refresh_leaves_combo :
  let after := exec (value_setter (VInt 0)) enum_widget in
  returns (value_setter (VInt 0)) enum_widget = true /\
  currentIndex (_comboBox (self enum_widget)) = 2 /\
  value (self after) = VInt 0 /\
  currentIndex (_comboBox (self after)) = 2.
Proof. repeat split; vm_compute; reflexivity. Qed.

(** The two-control float widget refreshes its slider through
    [_silentSliderUpdate(self._value * factor)], which multiplies by the
    factor once more: for the value [2.5] the slider is handed [25000] and
    not [250]. *)
Lemma float_refresh_scales_twice :
  let after := exec (value_setter (VFloat 2.5)) float_widget in
  value (self after) = VFloat 2.5 /\
  _spinBox (self after) = VFloat 2.5 /\
  _slider (self after) = VFloat 25000.
Proof. repeat split; vm_compute; reflexivity. Qed.

(** ** Snapshot and restore *)

Lemma _getAllProperties_eq (c : WidgetClass) :
  _getAllProperties c
  = match c with
    | EnumAttributeWidget => "enumValues" :: base_props
    | _ => base_props
    end.
Proof. destruct c; vm_compute; reflexivity. Qed.

Lemma stealMyData_spec (w : World) (a : Widget) :
  exists bundle,
    stealMyData (mkSt w a) = (Return bundle, mkSt w a) /\
    dict_truthy bundle = true /\
    bundle !! "value" = Some (value a) /\
    (cls a = EnumAttributeWidget -> bundle !! "enumValues" = Some (enumValues a)) /\
    bundle !! K_OVR_PLUG_OVERRIDE_DATA_KEYS
    = _sceneAttributeData a !! K_OVR_PLUG_OVERRIDE_DATA_KEYS.
Proof.
  assert (Hbase : (if dict_truthy (_sceneAttributeData a)
                   then _sceneAttributeData a else ∅) !! K_OVR_PLUG_OVERRIDE_DATA_KEYS
                  = _sceneAttributeData a !! K_OVR_PLUG_OVERRIDE_DATA_KEYS).
  { destruct (dict_truthy _) eqn:E; [reflexivity|].
    rewrite (dict_falsy_empty _ E). reflexivity. }
  unfold stealMyData. munfold. cbn [self]. rewrite _getAllProperties_eq.
  destruct (cls a) eqn:Hc.
  all: unfold base_props, fold_left, getattr; munfold; cbn [self].
  all: rewrite ?Hc.
  all: cbn [String.eqb Ascii.eqb Bool.eqb andb bool_decide].
  all: eexists; split; [reflexivity|].
  all: split; [apply dict_truthy_insert|].
  all: split; [apply lookup_insert_eq|].
  all: split;
    [ intros He; try discriminate He;
      repeat (rewrite lookup_insert_ne by discriminate); apply lookup_insert_eq
    | unfold K_OVR_PLUG_OVERRIDE_DATA_KEYS in *;
      repeat (rewrite lookup_insert_ne by discriminate); exact Hbase ].
Qed.

Lemma pushInData_spec (w : World) (b : Widget) (data : pydict) (v : pyval) :
  dict_truthy data = true ->
  _isConnected b = false ->
  data !! "value" = Some v ->
  py_ne v GARBAGE_TEST = true ->
  fits (cls b) v = true ->
  slider_shows_number b = true ->
  (cls b = EnumAttributeWidget ->
   exists l, data !! "enumValues" = Some (VList l) /\
             py_ne (VList l) (enumValues b) = false) ->
  exists st',
    pushInData data (mkSt w b) = (Return (), st') /\
    without_display (self st')
    = without_display (set_value v (set_sceneAttributeData data b)).
Proof.
  intros Hd Hc Hv Hne Hfit Hsl Henum.
  destruct (value_setter_disconnected w (set_sceneAttributeData data b) v Hc Hfit Hsl)
    as (st' & Hset & Hsame).
  exists st'. split; [|exact Hsame].
  unfold pushInData. rewrite Hd. munfold. cbn [self negb cls set_sceneAttributeData].
  rewrite _getAllProperties_eq.
  destruct (cls b) eqn:Hcls.
  all: unfold base_props, for_each, PUSH_SKIP_PROPERTIES, setattr; munfold.
  all: cbn [str_in existsb String.eqb Ascii.eqb Bool.eqb orb andb self world].
  all: unfold py_ne, GARBAGE_TEST in *.
  all: unfold dict_get, dict_item; rewrite Hv; cbn [default from_option id]; rewrite Hne.
  all: cbn beta iota; try (rewrite Hset; reflexivity).
  destruct (Henum eq_refl) as (l & He & Hpe). rewrite He.
  cbn [default from_option id py_eq as_num negb]. cbn beta iota.
  cbn [self cls set_sceneAttributeData]. rewrite Hcls.
  rewrite bool_decide_eq_true_2 by reflexivity.
  unfold enumValues_setter, py_ne. munfold.
  cbn [self _enumValues set_sceneAttributeData]. unfold enumValues in Hpe.
  rewrite Hpe, Hset. reflexivity.
Qed.

Lemma pushInData_absent (w : World) (b : Widget) (data : pydict) :
  dict_truthy data = true ->
  data !! "value" = None ->
  data !! "enumValues" = None ->
  pushInData data (mkSt w b) = (Return (), mkSt w (set_sceneAttributeData data b)).
Proof.
  intros Hd Hv He. unfold pushInData. rewrite Hd. munfold.
  cbn [self negb cls set_sceneAttributeData]. rewrite _getAllProperties_eq.
  destruct (cls b).
  all: unfold base_props, for_each, PUSH_SKIP_PROPERTIES, dict_get; munfold.
  all: cbn [str_in existsb String.eqb Ascii.eqb Bool.eqb orb andb self world].
  all: rewrite ?He, ?Hv; reflexivity.
Qed.




(** What the difference means: the first widget connects, the second, with
    the pushed bundle, does not. *)
Lemma pushed_widget_does_not_connect :
  let connect := connectToNode splitPlugString_at_dot false in
  _isConnected (self (exec connect count_widget)) = true /\
  _isConnected (self (exec connect (exec (pushInData count_bundle) count_widget))) = false.
Proof. split; vm_compute; reflexivity. Qed.

(** ** The slider of the float widget *)




(** ** A falsy read *)

(** C9: a connected widget whose read of the scene yields a falsy value
    ([0], [0.0], the empty string, [False], [None]) adopts nothing:
    [_onGetAttr] returns [None], the widget -- cached value and controls --
    is as before, and so is the scene; only the read is on record. *)
Theorem C9_falsy_read_is_no_update (w : World) (s : Widget) (p v : pyval) :
  _isConnected s = true ->
  effective_plug s = Some p ->
  scene_value w p = Some v ->
  truthy v = false ->
  _onGetAttr (mkSt w s) = (Return VNone, mkSt (logged p w) s).
Proof.
  intros Hc Hp Hv Hf. rewrite (_onGetAttr_reads w s p v Hc Hp Hv), Hf. reflexivity.
Qed.

(** C9 at work: the scene holds [0], the connected integer widget cached
    [3]. *)
Lemma C9_falsy_read_is_no_update_witness :
  let w := count_set_to (VInt 0) (world count_widget_live) in
  let s := self count_widget_live in
  _onGetAttr (mkSt w s) = (Return VNone, mkSt (logged (VStr "ball.count") w) s).
Proof.
  intros w s.
  apply (C9_falsy_read_is_no_update w s (VStr "ball.count") (VInt 0));
    vm_compute; reflexivity.
Defined.

(** ** Assigning [value] *)

(** C10 (defect in the code): the check box of the boolean widget of the
    sample scene is checked.  One assignment [value = False] emits
    [valueChanged] twice: [_updateWidgetValues] sets the check box with its
    listener attached, the change reaches [_widgetUpdated], which emits, and
    then [_updateWidgetValues] emits as well.  An assignment that leaves the
    check box as it is emits once. *)
Theorem C10_bool_assignment_emits_twice :
  let after := exec (value_setter (VBool false)) bool_widget in
  let again := exec (value_setter (VBool false)) after in
  returns (value_setter (VBool false)) bool_widget = true /\
  _isConnected (self bool_widget) = false /\
  _checkBox (self bool_widget) = true /\
  valueChanged_count (world after) = (valueChanged_count (world bool_widget) + 2)%nat /\
  valueChanged_count (world again) = (valueChanged_count (world after) + 1)%nat.
Proof. repeat split; vm_compute; reflexivity. Qed.

(** * Further properties *)

(** ** Invariants along a computation *)

Section Steady.

Context {B : Type}.
Variable I : St -> Prop.
Variable f : St -> B.

Lemma steady_ret {A : Type} (a : A) : steady I f (mret a).
Proof. intros st H. split; [exact H | reflexivity]. Qed.

Lemma steady_raise {A : Type} (e : exn) : steady I f (@raise A e).
Proof. intros st H. split; [exact H | reflexivity]. Qed.

Lemma steady_lift {A : Type} (o : outcome A) : steady I f (lift o).
Proof. intros st H. split; [exact H | reflexivity]. Qed.

Lemma steady_get_self : steady I f get_self.
Proof. intros st H. split; [exact H | reflexivity]. Qed.

Lemma steady_get_world : steady I f get_world.
Proof. intros st H. split; [exact H | reflexivity]. Qed.

Lemma steady_bind {A C : Type} (m : M A) (k : A -> M C) :
  steady I f m -> (forall a, steady I f (k a)) -> steady I f (m ≫= k).
Proof.
  intros Hm Hk st H. unfold mbind, M_bind. destruct (Hm st H) as [HI Hf].
  destruct (m st) as [[a|e] st1]; simpl in *; [|split; assumption].
  destruct (Hk a st1 HI) as [HI' Hf']. split; [exact HI' | congruence].
Qed.

Lemma steady_try_except {A : Type} (m h : M A) :
  steady I f m -> steady I f h -> steady I f (try_except m h).
Proof.
  intros Hm Hh st H. unfold try_except. destruct (Hm st H) as [HI Hf].
  destruct (m st) as [[a|e] st1]; simpl in *; [split; assumption|].
  destruct (Hh st1 HI) as [HI' Hf']. split; [exact HI' | congruence].
Qed.

Lemma steady_slot (m : M unit) : steady I f m -> steady I f (slot m).
Proof. intros Hm. apply steady_try_except; [exact Hm | apply steady_ret]. Qed.

Lemma steady_for_each {A : Type} (l : list A) (body : A -> M unit) :
  (forall x, steady I f (body x)) -> steady I f (for_each l body).
Proof.
  intros Hb. induction l as [|x l IH]; simpl; [apply steady_ret|].
  apply steady_bind; [apply Hb | intros _; exact IH].
Qed.

Lemma steady_modify_self (g : Widget -> Widget) :
  (forall w s, I (mkSt w s) -> I (mkSt w (g s)) /\ f (mkSt w (g s)) = f (mkSt w s)) ->
  steady I f (modify_self g).
Proof. intros Hg [w s] H. exact (Hg w s H). Qed.

Lemma steady_modify_world (g : World -> World) :
  (forall w s, I (mkSt w s) -> I (mkSt (g w) s) /\ f (mkSt (g w) s) = f (mkSt w s)) ->
  steady I f (modify_world g).
Proof. intros Hg [w s] H. exact (Hg w s H). Qed.

End Steady.

Create HintDb steady.

#[local] Hint Resolve steady_ret steady_raise steady_lift steady_get_self
  steady_get_world : steady.

(** Takes a computation apart along its binds and branches; [leaf] settles
    the updates of the widget and of the host. *)
Ltac steady_by leaf :=
  repeat first
    [ solve [auto with steady nocore]
    | lazymatch goal with
      | |- steady _ _ (mbind _ _) => apply steady_bind
      | |- steady _ _ (try_except _ _) => apply steady_try_except
      | |- steady _ _ (slot _) => apply steady_slot
      | |- steady _ _ (for_each _ _) => apply steady_for_each
      | |- steady _ _ (modify_self _) => apply steady_modify_self; solve [leaf]
      | |- steady _ _ (modify_world _) => apply steady_modify_world; solve [leaf]
      | |- forall _, _ => intro
      end
    | case_match
    | progress cbv beta zeta ].

(** *** The display and the value *)

Section Display.

Context {B : Type}.
Variable I : St -> Prop.
Variable f : St -> B.

(** The invariant and the observation see of the widget its bookkeeping
    only; emitting the signal and the write-through respect them. *)
Hypothesis self_respects : forall w s s',
  bookkeeping s' = bookkeeping s ->
  I (mkSt w s) -> I (mkSt w s') /\ f (mkSt w s') = f (mkSt w s).
Hypothesis steady_emit : steady I f valueChanged_emit.
Hypothesis steady_write : steady I f (_onSetAttr false).

Lemma steady_shown (g : Widget -> Widget) :
  (forall s, bookkeeping (g s) = bookkeeping s) -> steady I f (modify_self g).
Proof.
  intros Hg. apply steady_modify_self. intros w s H.
  exact (self_respects w s (g s) (Hg s) H).
Qed.

Ltac shown :=
  steady_by ltac:(idtac);
  try (apply steady_shown; intros; reflexivity).

Lemma steady_QLineEdit_setText (v : pyval) : steady I f (QLineEdit_setText v).
Proof. unfold QLineEdit_setText. shown. Qed.

Lemma steady_QSpinBox_setValue (v : pyval) : steady I f (QSpinBox_setValue v).
Proof. unfold QSpinBox_setValue. shown. Qed.

Lemma steady_QSlider_setValue (v : pyval) : steady I f (QSlider_setValue v).
Proof. unfold QSlider_setValue. shown. Qed.

Lemma steady_QCheckBox_setChecked (v : pyval) : steady I f (QCheckBox_setChecked v).
Proof. unfold QCheckBox_setChecked. shown. Qed.

Lemma steady_QComboBox_setCurrentIndex (v : pyval) :
  steady I f (QComboBox_setCurrentIndex v).
Proof. unfold QComboBox_setCurrentIndex. shown. Qed.

Lemma steady_QComboBox_addItems (l : pyval) : steady I f (QComboBox_addItems l).
Proof. unfold QComboBox_addItems. shown. Qed.

Lemma steady_QComboBox_removeItem (i : Z) : steady I f (QComboBox_removeItem i).
Proof. unfold QComboBox_removeItem. shown. Qed.

#[local] Hint Resolve steady_emit steady_write steady_QLineEdit_setText
  steady_QSpinBox_setValue steady_QSlider_setValue steady_QCheckBox_setChecked
  steady_QComboBox_setCurrentIndex steady_QComboBox_addItems
  steady_QComboBox_removeItem : steady.

Lemma steady__widgetUpdated : steady I f _widgetUpdated.
Proof. unfold _widgetUpdated. shown. Qed.

Lemma steady__silentSpinBoxUpdate (v : pyval) : steady I f (_silentSpinBoxUpdate v).
Proof. unfold _silentSpinBoxUpdate. shown. Qed.

Lemma steady__silentSliderUpdate (v : pyval) : steady I f (_silentSliderUpdate v).
Proof. unfold _silentSliderUpdate. shown. Qed.

#[local] Hint Resolve steady__widgetUpdated steady__silentSpinBoxUpdate
  steady__silentSliderUpdate : steady.

Lemma steady__spinBoxUpdated (v : pyval) : steady I f (_spinBoxUpdated v).
Proof. unfold _spinBoxUpdated. shown. Qed.

Lemma steady__sliderUpdated (v : pyval) : steady I f (_sliderUpdated v).
Proof. unfold _sliderUpdated. shown. Qed.

Lemma steady__updateWidgetValues : steady I f _updateWidgetValues.
Proof. unfold _updateWidgetValues. shown. Qed.

#[local] Hint Resolve steady__spinBoxUpdated steady__sliderUpdated
  steady__updateWidgetValues : steady.

Lemma steady_value_setter (v : pyval) : steady I f (value_setter v).
Proof. unfold value_setter. shown. Qed.

Lemma steady_user_moves_slider (v : pyval) : steady I f (user_moves_slider v).
Proof. unfold user_moves_slider. shown. Qed.

Lemma steady_user_edits_spinBox (v : pyval) : steady I f (user_edits_spinBox v).
Proof. unfold user_edits_spinBox. shown. Qed.

Lemma steady__setupSocketConnections : steady I f _setupSocketConnections.
Proof. unfold _setupSocketConnections. shown. Qed.

End Display.

Ltac same := intros ? ? ?; split; [assumption | reflexivity].

(** ** What assigning, editing and refreshing never change *)

Lemma frame_respects (w : World) (s s' : Widget) :
  bookkeeping s' = bookkeeping s ->
  always (mkSt w s) -> always (mkSt w s') /\ frame (mkSt w s') = frame (mkSt w s).
Proof. intros Hb _. split; [exact Logic.I|]. unfold frame. simpl. rewrite Hb. reflexivity. Qed.

Lemma frame_emit : steady always frame valueChanged_emit.
Proof. unfold valueChanged_emit. steady_by same. Qed.

Lemma frame_cmds_getAttr (p : pyval) : steady always frame (cmds_getAttr p).
Proof. unfold cmds_getAttr, plug_name. steady_by same. Qed.

Lemma frame_cmds_setAttr (p v : pyval) (ty : option string) :
  steady always frame (cmds_setAttr p v ty).
Proof. unfold cmds_setAttr, plug_name. steady_by same. Qed.

#[local] Hint Resolve frame_emit frame_cmds_getAttr frame_cmds_setAttr : steady.

Lemma frame__onSetAttr (force : bool) : steady always frame (_onSetAttr force).
Proof. unfold _onSetAttr. steady_by same. Qed.

Lemma frame__updateWidgetValues : steady always frame _updateWidgetValues.
Proof.
  exact (steady__updateWidgetValues always frame frame_respects frame_emit
           (frame__onSetAttr false)).
Qed.

#[local] Hint Resolve frame__onSetAttr frame__updateWidgetValues : steady.

Lemma frame__onGetAttr : steady always frame _onGetAttr.
Proof. unfold _onGetAttr. steady_by same. Qed.


(** ** A widget that is not connected *)

Lemma offline_respects (w : World) (s s' : Widget) :
  bookkeeping s' = bookkeeping s ->
  offline (mkSt w s) -> offline (mkSt w s') /\ backstage (mkSt w s') = backstage (mkSt w s).
Proof.
  unfold offline. simpl. intros Hb H. split; [|reflexivity].
  apply (f_equal _isConnected) in Hb. simpl in Hb. congruence.
Qed.

Lemma offline_emit : steady offline backstage valueChanged_emit.
Proof. unfold valueChanged_emit. steady_by same. Qed.

Lemma offline__onSetAttr : steady offline backstage (_onSetAttr false).
Proof.
  intros st H. rewrite (_onSetAttr_disconnected st H). split; [exact H | reflexivity].
Qed.

Lemma offline_value_setter (v : pyval) : steady offline backstage (value_setter v).
Proof.
  exact (steady_value_setter offline backstage offline_respects offline_emit
           offline__onSetAttr v).
Qed.

Lemma offline__widgetUpdated : steady offline backstage _widgetUpdated.
Proof.
  exact (steady__widgetUpdated offline backstage offline_respects offline_emit
           offline__onSetAttr).
Qed.

Lemma offline_QComboBox_removeItem (i : Z) :
  steady offline backstage (QComboBox_removeItem i).
Proof. exact (steady_QComboBox_removeItem offline backstage offline_respects i). Qed.

Lemma offline_QComboBox_addItems (l : pyval) :
  steady offline backstage (QComboBox_addItems l).
Proof. exact (steady_QComboBox_addItems offline backstage offline_respects l). Qed.

Lemma offline_QComboBox_setCurrentIndex (v : pyval) :
  steady offline backstage (QComboBox_setCurrentIndex v).
Proof. exact (steady_QComboBox_setCurrentIndex offline backstage offline_respects v). Qed.

#[local] Hint Resolve offline_value_setter offline__widgetUpdated
  offline_QComboBox_removeItem offline_QComboBox_addItems
  offline_QComboBox_setCurrentIndex : steady.

Lemma offline_enumValues_setter (v : pyval) :
  steady offline backstage (enumValues_setter v).
Proof. unfold enumValues_setter. steady_by same. Qed.

#[local] Hint Resolve offline_enumValues_setter : steady.

Lemma offline_setattr (name : string) (v : pyval) :
  steady offline backstage (setattr name v).
Proof. unfold setattr. steady_by same. Qed.

#[local] Hint Resolve offline_setattr : steady.

Lemma offline_resetToDefaultValue : steady offline backstage resetToDefaultValue.
Proof. unfold resetToDefaultValue. steady_by same. Qed.

#[local] Hint Resolve offline_resetToDefaultValue : steady.

Lemma offline_pushInData (data : pydict) : steady offline backstage (pushInData data).
Proof. unfold pushInData. steady_by same. Qed.

Lemma offline_perform (e : edit) : steady offline backstage (perform e).
Proof.
  destruct e; simpl.
  - apply offline_value_setter.
  - apply offline_pushInData.
  - apply offline_resetToDefaultValue.
  - exact (steady_user_moves_slider offline backstage offline_respects offline_emit
             offline__onSetAttr val).
  - exact (steady_user_edits_spinBox offline backstage offline_respects offline_emit
             offline__onSetAttr val).
Qed.

(** X2.  While a widget is not connected, no sequence of value assignments,
    pushed bundles, resets and user edits of its numeric controls reads or
    writes the scene, registers or schedules a callback, or connects the
    widget: the host is left as it was but for the count of [valueChanged]
    emissions, up to the point where the sequence ends or raises. *)
Theorem offline_edits_leave_the_scene (l : list edit) (st : St) :
  _isConnected (self st) = false ->
  _isConnected (self (exec (for_each l perform) st)) = false /\
  behind_the_signal (world (exec (for_each l perform) st)) = behind_the_signal (world st).
Proof.
  intros H. apply (steady_for_each offline backstage l perform offline_perform st H).
Qed.

Lemma offline_edits_leave_the_scene_witness :
  let l := [Assign (VInt 5); PushIn (<["value" := VInt 4]> ∅); ResetToDefault;
            MoveSlider (VInt 7); EditSpinBox (VInt 2)] in
  _isConnected (self (exec (for_each l perform) count_widget)) = false /\
  behind_the_signal (world (exec (for_each l perform) count_widget))
  = behind_the_signal (world count_widget).
Proof.
  intros l. apply (offline_edits_leave_the_scene l count_widget).
  vm_compute. reflexivity.
Defined.

(** ** Construction *)

Lemma setting_respects (w : World) (s s' : Widget) :
  bookkeeping s' = bookkeeping s ->
  offline (mkSt w s) -> offline (mkSt w s') /\ setting (mkSt w s') = setting (mkSt w s).
Proof.
  unfold offline, setting. simpl. intros Hb H.
  change (binding s') with (binding (bookkeeping s')).
  change (_isConnected s') with (_isConnected (bookkeeping s')).
  rewrite Hb. split; [exact H | reflexivity].
Qed.

Lemma setting_emit : steady offline setting valueChanged_emit.
Proof. unfold valueChanged_emit. steady_by same. Qed.

Lemma setting__onSetAttr : steady offline setting (_onSetAttr false).
Proof.
  intros st H. rewrite (_onSetAttr_disconnected st H). split; [exact H | reflexivity].
Qed.

Lemma setting_QLineEdit_setText (v : pyval) : steady offline setting (QLineEdit_setText v).
Proof. exact (steady_QLineEdit_setText offline setting setting_respects v). Qed.

Lemma setting_QSpinBox_setValue (v : pyval) : steady offline setting (QSpinBox_setValue v).
Proof. exact (steady_QSpinBox_setValue offline setting setting_respects v). Qed.

Lemma setting_QSlider_setValue (v : pyval) : steady offline setting (QSlider_setValue v).
Proof. exact (steady_QSlider_setValue offline setting setting_respects v). Qed.

Lemma setting_QComboBox_addItems (v : pyval) : steady offline setting (QComboBox_addItems v).
Proof. exact (steady_QComboBox_addItems offline setting setting_respects v). Qed.

Lemma setting_QComboBox_setCurrentIndex (v : pyval) :
  steady offline setting (QComboBox_setCurrentIndex v).
Proof. exact (steady_QComboBox_setCurrentIndex offline setting setting_respects v). Qed.

Lemma setting__setupSocketConnections : steady offline setting _setupSocketConnections.
Proof.
  exact (steady__setupSocketConnections offline setting setting_respects setting_emit
           setting__onSetAttr).
Qed.

#[local] Hint Resolve setting_QLineEdit_setText setting_QSpinBox_setValue
  setting_QSlider_setValue setting_QComboBox_addItems
  setting_QComboBox_setCurrentIndex setting__setupSocketConnections : steady.

Lemma setting__buildWidget : steady offline setting _buildWidget.
Proof. unfold _buildWidget. steady_by same. Qed.

Lemma setting__getAttributeInformation : steady offline setting _getAttributeInformation.
Proof.
  unfold _getAttributeInformation, cmds_objExists, cmds_getAttr, cmds_attributeQuery,
    plug_name.
  steady_by same.
Qed.

#[local] Hint Resolve setting__buildWidget setting__getAttributeInformation : steady.

(** X3.  A widget the constructor returns is of the class asked for and
    bound to the plug [node.attribute], whose type in the scene is the type
    given and one the class supports; it is not connected, has no pending
    marker, no wrapper and an empty override bundle; and constructing it
    wrote nothing to the scene and registered or scheduled no callback: the
    host is as before but for the reads on record and the count of
    [valueChanged] emissions. *)
Theorem new_widget_is_unbound (c : WidgetClass)
    (node attribute attributeType : option string) (kwargs : pydict)
    (w w' : World) (s : Widget) :
  new c node attribute attributeType kwargs w = (Return s, w') ->
  cls s = c /\
  Some (_node s) = node /\ Some (_attribute s) = attribute /\
  Some (_attributeType s) = attributeType /\
  _plugString s = _node s +:+ "." +:+ _attribute s /\
  str_in (_attributeType s) (VALID_ATTR_TYPES c) = true /\
  a_type <$> attrs w !! _plugString s = Some (_attributeType s) /\
  _isConnected s = false /\
  _deferredUpdateRequest s = [] /\ _nodeCallbacks s = [] /\
  _sceneAttributeData s = ∅ /\
  behind_the_reads w' = behind_the_reads w.
Proof.
  unfold new. intros Hnew.
  destruct (__init__ _ _ _ _ _) as [[[]|e] st'] eqn:E; [|discriminate].
  injection Hnew as <- <-.
  unfold __init__ in E. unfold mbind at 1, M_bind at 1, get_self at 1 in E.
  cbn [self world blank cls] in E.
  destruct (absent node || absent attribute || absent attributeType) eqn:Habs;
    [unfold raise in E; discriminate|].
  apply orb_false_elim in Habs as [Habs Ht]. apply orb_false_elim in Habs as [Hn Ha0].
  destruct node as [n|]; [|discriminate]. destruct attribute as [a|]; [|discriminate].
  destruct attributeType as [t|]; [|discriminate]. clear Hn Ha0 Ht.
  cbn [default from_option id] in E.
  unfold mbind at 1, M_bind at 1 in E.
  unfold cmds_getAttr_type, plug_name in E. munfold. cbn [world self] in E.
  destruct (attrs w !! (n +:+ "." +:+ a)) as [at0|] eqn:Ha; [|discriminate].
  destruct (negb (a_type at0 =? t)%string) eqn:Hty; [discriminate|].
  destruct (negb (str_in t (VALID_ATTR_TYPES c))) eqn:Hvalid; [discriminate|].
  cbn [world self blank _value _customIncrement _lineEdit _comboBox _spinBox
       _slider _checkBox _enumValues] in E.
  match type of E with context [_getAttributeInformation ?st0] =>
    assert (K : offline st' /\ setting st' = setting st0); [|clear E] end.
  { match type of E with context [_getAttributeInformation ?st0] =>
      destruct (setting__getAttributeInformation st0 eq_refl) as [I1 F1] end.
    destruct (_getAttributeInformation _) as [[d|e] st1]; [|discriminate].
    cbn [snd] in I1, F1. rewrite <- F1.
    destruct (dict_item d "value") as [d0|e]; [|discriminate].
    match type of E with context [_buildWidget ?st2] =>
      destruct (setting__buildWidget st2 I1) as [I3 F3] end.
    destruct (_buildWidget _) as [[[]|e] st3]; [|discriminate].
    cbn [snd] in I3, F3.
    destruct (setting__setupSocketConnections st3 I3) as [I4 F4].
    rewrite E in I4, F4. cbn [snd] in I4, F4. split; [exact I4|].
    rewrite F4, F3. reflexivity. }
  destruct K as [K1 K2].
  pose proof (f_equal fst K2) as Kb. pose proof (f_equal snd K2) as Kw.
  unfold setting, binding in Kb, Kw. cbn [fst snd self world] in Kb, Kw.
  injection Kb as -> -> -> -> -> _ -> -> ->.
  apply negb_false_iff in Hty, Hvalid. apply String.eqb_eq in Hty.
  repeat split; try reflexivity; try assumption.
  rewrite Ha. simpl. congruence.
Qed.

Lemma new_widget_is_unbound_witness :
  let s := self count_widget in
  cls s = IntegerNumericAttributeWidget /\
  Some (_node s) = Some "ball" /\ Some (_attribute s) = Some "count" /\
  Some (_attributeType s) = Some "long" /\
  _plugString s = _node s +:+ "." +:+ _attribute s /\
  str_in (_attributeType s) (VALID_ATTR_TYPES IntegerNumericAttributeWidget) = true /\
  a_type <$> attrs ball_scene !! _plugString s = Some (_attributeType s) /\
  _isConnected s = false /\
  _deferredUpdateRequest s = [] /\ _nodeCallbacks s = [] /\
  _sceneAttributeData s = ∅ /\
  behind_the_reads (world count_widget) = behind_the_reads ball_scene.
Proof.
  intros s.
  apply (new_widget_is_unbound IntegerNumericAttributeWidget (Some "ball")
           (Some "count") (Some "long") ∅ ball_scene (world count_widget) s).
  vm_compute. reflexivity.
Defined.

(** ** What the constructor makes of its keywords *)

Lemma blind_ret {A : Type} (a : A) : blind (mret a).
Proof. intros w s s'. eexists _, _. split; reflexivity. Qed.

Lemma blind_raise {A : Type} (e : exn) : blind (@raise A e).
Proof. intros w s s'. eexists _, _. split; reflexivity. Qed.

Lemma blind_get_world : blind get_world.
Proof. intros w s s'. eexists _, _. split; reflexivity. Qed.

Lemma blind_modify_world (g : World -> World) : blind (modify_world g).
Proof. intros w s s'. eexists _, _. split; reflexivity. Qed.

Lemma blind_bind {A C : Type} (m : M A) (k : A -> M C) :
  blind m -> (forall a, blind (k a)) -> blind (m ≫= k).
Proof.
  intros Hm Hk w s s'. unfold mbind, M_bind.
  destruct (Hm w s s') as (o & w1 & -> & ->). destruct o as [a|e].
  - apply Hk.
  - eexists _, _. split; reflexivity.
Qed.

Create HintDb blind.

#[local] Hint Resolve blind_ret blind_raise blind_get_world blind_modify_world : blind.

Ltac blind :=
  repeat first
    [ solve [auto with blind nocore]
    | lazymatch goal with
      | |- blind (mbind _ _) => apply blind_bind
      | |- forall _, _ => intro
      end
    | case_match
    | progress cbv beta zeta ].

Lemma bind_get_self {A : Type} (k : Widget -> M A) (w : World) (s : Widget) :
  (get_self ≫= k) (mkSt w s) = k s (mkSt w s).
Proof. reflexivity. Qed.

Lemma bind_get_world {A : Type} (k : World -> M A) (w : World) (s : Widget) :
  (get_world ≫= k) (mkSt w s) = k w (mkSt w s).
Proof. reflexivity. Qed.

Lemma _getAttributeInformation_reads (w : World) (s s' : Widget) :
  cls s = cls s' -> _node s = _node s' -> _attribute s = _attribute s' ->
  _plugString s = _plugString s' ->
  exists o w1,
    _getAttributeInformation (mkSt w s) = (o, mkSt w1 s) /\
    _getAttributeInformation (mkSt w s') = (o, mkSt w1 s').
Proof.
  intros Hc Hn Ha Hp.
  unfold _getAttributeInformation. rewrite !bind_get_self. cbv beta zeta.
  rewrite <- Hc, <- Hn, <- Ha, <- Hp.
  match goal with |- context [?k (mkSt w s) = _] => cut (blind k) end.
  { intros K. apply K. }
  unfold cmds_objExists, cmds_getAttr, cmds_attributeQuery, plug_name. blind.
Qed.

Lemma _buildWidget_overwrites (w : World) (c : WidgetClass) (node attribute plug : string)
    (name : pyval) (ty : string) (conn : bool) (dflt : pydict) (v v' inc : pyval)
    (pend : list bool) (cbs : list MCallbackIdWrapper) (data : pydict) (ev ev' : pyval)
    (line : string) (combo : QComboBox) (spin slide : pyval) (check : bool) :
  c <> BaseAttributeWidget ->
  (c <> EnumAttributeWidget -> ev = ev') ->
  match _buildWidget (mkSt w (mkWidget c node attribute plug name ty conn dflt v inc
                                pend cbs data ev line combo spin slide check)),
        _buildWidget (mkSt w (mkWidget c node attribute plug name ty conn dflt v' inc
                                pend cbs data ev' line combo spin slide check)) with
  | (Return _, st1), (Return _, st2) => st1 = st2
  | (Raise e1, st1), (Raise e2, st2) => e1 = e2 /\ world st1 = world st2
  | _, _ => False
  end.
Proof.
  intros Hb He.
  unfold _buildWidget, QSpinBox_setValue, QSlider_setValue, QLineEdit_setText,
    QComboBox_addItems, QComboBox_setCurrentIndex.
  munfold. cbn [self world cls _attributeDefaults].
  destruct c; try contradiction; try (rewrite <- (He ltac:(discriminate)));
    repeat (first [progress simpl in * | case_match]); simplify_eq; simpl in *;
      auto; try congruence.
Qed.

Lemma _buildWidget_forgets (w : World) (s1 s2 : Widget) :
  cls s1 <> BaseAttributeWidget ->
  unvalued s1 = unvalued s2 ->
  (cls s1 <> EnumAttributeWidget -> _enumValues s1 = _enumValues s2) ->
  match _buildWidget (mkSt w s1), _buildWidget (mkSt w s2) with
  | (Return _, st1), (Return _, st2) => st1 = st2
  | (Raise e1, st1), (Raise e2, st2) => e1 = e2 /\ world st1 = world st2
  | _, _ => False
  end.
Proof.
  destruct s1, s2. unfold unvalued. simpl. intros Hb Hu He. simplify_eq.
  apply _buildWidget_overwrites; assumption.
Qed.

Lemma new_keywords (c : WidgetClass) (node attribute attributeType : option string)
    (kwargs kwargs' : pydict) (w : World) :
  dict_get kwargs "displayName" VNone = dict_get kwargs' "displayName" VNone ->
  dict_get kwargs "increment" K_FLOAT_WIDGET_STEP_INCREMENT
  = dict_get kwargs' "increment" K_FLOAT_WIDGET_STEP_INCREMENT ->
  new c node attribute attributeType kwargs w
  = new c node attribute attributeType kwargs' w.
Proof.
  intros Hd Hi. unfold new, __init__. rewrite !bind_get_self. cbv beta zeta.
  rewrite <- Hd, <- Hi.
  destruct (absent node || absent attribute || absent attributeType); [reflexivity|].
  unfold cmds_getAttr_type, plug_name. munfold. cbn [world self].
  destruct (attrs w !! _) as [at0|]; [|reflexivity].
  destruct (negb (String.eqb _ _)); [reflexivity|].
  destruct (negb (str_in _ _)) eqn:Hvalid; [reflexivity|].
  assert (Hb : c <> BaseAttributeWidget).
  { intros ->. simpl in Hvalid. discriminate. }
  cbn [world self blank cls _value _customIncrement _lineEdit _comboBox _spinBox
       _slider _checkBox _enumValues].
  lazymatch goal with
  | |- ?lhs = ?rhs =>
      match lhs with context [_getAttributeInformation (mkSt _ ?s1)] =>
        match rhs with context [_getAttributeInformation (mkSt _ ?s2)] =>
          destruct (_getAttributeInformation_reads w s1 s2 eq_refl eq_refl eq_refl eq_refl)
            as (o & w1 & -> & ->)
        end
      end
  end.
  destruct o as [d|e]; [|reflexivity]. cbn [self world].
  destruct (dict_item d "value") as [fb|e]; [|reflexivity].
  lazymatch goal with
  | |- ?lhs = ?rhs =>
      match lhs with context [_buildWidget (mkSt _ ?s1)] =>
        match rhs with context [_buildWidget (mkSt _ ?s2)] =>
          assert (He : cls s1 <> EnumAttributeWidget -> _enumValues s1 = _enumValues s2);
          [|pose proof (_buildWidget_forgets w1 s1 s2 Hb eq_refl He) as K; clear He]
        end
      end
  end.
  { cbn [cls _enumValues set_customIncrement set_value set_attributeDefaults].
    intros Hne. rewrite !bool_decide_eq_false_2 by exact Hne. reflexivity. }
  destruct (_buildWidget _) as [[[]|e1] st1], (_buildWidget _) as [[[]|e2] st2];
    try contradiction.
  - rewrite K. reflexivity.
  - destruct K as [-> ->]. reflexivity.
Qed.

(** X4.  The keywords [value] and [enumStrings] of the constructors have no
    effect: [_buildWidget] of every concrete class assigns the cached value
    and the option list from the defaults it read from the scene, after
    [__init__] stored the keywords. *)
Theorem constructor_ignores_value (c : WidgetClass)
    (node attribute attributeType : option string) (kwargs : pydict) (val opts : pyval)
    (w : World) :
  new c node attribute attributeType (<["value" := val]> (<["enumStrings" := opts]> kwargs)) w
  = new c node attribute attributeType kwargs w.
Proof.
  apply new_keywords; unfold dict_get;
    rewrite lookup_insert_ne by discriminate; rewrite lookup_insert_ne by discriminate;
    reflexivity.
Qed.

(** ** The factory *)

(** X5.  The factory raises [TypeError] when no type is given; otherwise it
    builds the widget of one class, which the type and the truth of the
    keyword [noLabel] determine: the string, enumeration or boolean widget
    for their types, for a float or an integer type the two-control widget,
    or the one-control widget when [noLabel] is set; and it returns [None],
    leaving the host alone, for a type that no class takes.  An exception of
    the constructor passes through. *)
Theorem AttributeWidgetFactory_choice (node attribute attributeType : option string)
    (kwargs : pydict) (w : World) :
  AttributeWidgetFactory node attribute attributeType kwargs w
  = if absent attributeType then (Raise TypeError, w)
    else
      let t := default "" attributeType in
      let noLabel := dict_get kwargs "noLabel" (VBool false) in
      match factory_choice t (truthy noLabel) with
      | None => (Return None, w)
      | Some c =>
          match new c node attribute (Some t)
                  (<["value" := dict_get kwargs "value" (VInt 0)]>
                   (<["displayName" := dict_get kwargs "displayName" (VStr "")]>
                   (<["noLabel" := noLabel]> ∅))) w with
          | (Return s, w') => (Return (Some s), w')
          | (Raise e, w') => (Raise e, w')
          end
      end.
Proof.
  unfold AttributeWidgetFactory. destruct (absent attributeType); [reflexivity|].
  cbv zeta. generalize (default "" attributeType). intros t.
  change (__subclasses__ BaseAttributeWidget) with
    [StringAttributeWidget; EnumAttributeWidget; FloatNumericSimpleAttributeWidget;
     FloatNumericAttributeWidget; IntegerNumericSimpleAttributeWidget;
     IntegerNumericAttributeWidget; BoolAttributeWidget].
  unfold factory_choice. cbn [factory_loop IS_SIMPLE andb negb VALID_ATTR_TYPES].
  destruct (truthy (dict_get kwargs "noLabel" (VBool false)));
    cbn [andb negb];
    repeat (match goal with |- context [str_in t ?l] => destruct (str_in t l) end;
            try reflexivity).
Qed.

Lemma factory_loop_keywords (node attribute : option string) (t : string)
    (kwargs kwargs' : pydict) (w : World) (l : list WidgetClass) :
  dict_get kwargs "displayName" (VStr "") = dict_get kwargs' "displayName" (VStr "") ->
  dict_get kwargs "noLabel" (VBool false) = dict_get kwargs' "noLabel" (VBool false) ->
  factory_loop node attribute t kwargs w l = factory_loop node attribute t kwargs' w l.
Proof.
  intros Hd Hn. induction l as [|c l IH]; [reflexivity|].
  cbn [factory_loop]. rewrite <- Hd, <- Hn, IH.
  destruct (match IS_SIMPLE c with Some _ => _ | None => _ end); [reflexivity|].
  destruct (str_in t (VALID_ATTR_TYPES c)); [|reflexivity].
  match goal with |- match ?x with _ => _ end = match ?y with _ => _ end =>
    replace x with y; [reflexivity|] end.
  apply new_keywords; unfold dict_get;
    repeat first [rewrite lookup_insert_eq | rewrite lookup_insert_ne by discriminate];
    reflexivity.
Qed.

(** X6.  Of its keywords the factory passes on [value], [displayName] and
    [noLabel], and the constructor makes nothing of [value]: two calls that
    differ in keywords other than [displayName] and [noLabel] -- in [value],
    [increment], [enumStrings] -- have the same result.  (The label, which
    the model leaves out, is all that [noLabel] and [displayName] reach
    besides the choice of the class.) *)
Theorem AttributeWidgetFactory_keywords (node attribute attributeType : option string)
    (kwargs kwargs' : pydict) (w : World) :
  dict_get kwargs "displayName" (VStr "") = dict_get kwargs' "displayName" (VStr "") ->
  dict_get kwargs "noLabel" (VBool false) = dict_get kwargs' "noLabel" (VBool false) ->
  AttributeWidgetFactory node attribute attributeType kwargs w
  = AttributeWidgetFactory node attribute attributeType kwargs' w.
Proof.
  intros Hd Hn. unfold AttributeWidgetFactory.
  destruct (absent attributeType); [reflexivity|].
  apply factory_loop_keywords; assumption.
Qed.

Lemma AttributeWidgetFactory_keywords_witness :
  AttributeWidgetFactory (Some "ball") (Some "radius") (Some "double")
    (<["value" := VFloat 5]> (<["increment" := VFloat 0.5]> ∅)) ball_scene
  = AttributeWidgetFactory (Some "ball") (Some "radius") (Some "double") ∅ ball_scene.
Proof.
  apply AttributeWidgetFactory_keywords; vm_compute; reflexivity.
Defined.

(** ** Writing through, for a connected widget *)

Lemma cmds_setAttr_written (w : World) (s : Widget) (name : string) (v : pyval)
    (ty : option string) :
  exists w',
    try_except (cmds_setAttr (VStr name) v ty) (mret ()) (mkSt w s) = (Return (), mkSt w' s) /\
    attrs w' = written name v ty w /\
    registry w' = registry w /\
    valueChanged_count w' = valueChanged_count w /\
    nodes w' = nodes w.
Proof.
  unfold cmds_setAttr, plug_name, written. munfold. simpl.
  destruct (attrs w !! name) as [a|]; simpl; [|eexists; repeat split; reflexivity].
  destruct (host_accepts a ty v); eexists; repeat split; reflexivity.
Qed.

Lemma _onSetAttr_written (force : bool) (w : World) (s : Widget) (name : string) :
  force || _isConnected s = true ->
  effective_plug s = Some (VStr name) ->
  is_Some (attrs w !! _plugString s) ->
  exists w',
    _onSetAttr force (mkSt w s) = (Return (), mkSt w' s) /\
    attrs w' = written name (_value s) (setAttr_type s) w /\
    registry w' = registry w /\
    valueChanged_count w' = valueChanged_count w /\
    nodes w' = nodes w.
Proof.
  intros Hc Hp [a Ha].
  assert (Hread : cmds_getAttr (VStr (_plugString s)) (mkSt w s)
                  = (Return (a_value a), mkSt (logged (VStr (_plugString s)) w) s)).
  { apply cmds_getAttr_reads. simpl. rewrite Ha. reflexivity. }
  assert (Hw : exists w',
    (_val ← cmds_getAttr (VStr (_plugString s));
     try_except
       (if String.eqb (_attributeType s) "string"
        then cmds_setAttr (VStr name) (_value s) (Some (_attributeType s))
        else cmds_setAttr (VStr name) (_value s) None)
       (mret ())) (mkSt w s) = (Return (), mkSt w' s) /\
    attrs w' = written name (_value s) (setAttr_type s) w /\
    registry w' = registry w /\
    valueChanged_count w' = valueChanged_count w /\
    nodes w' = nodes w).
  { unfold mbind at 1, M_bind at 1. rewrite Hread. unfold setAttr_type.
    destruct (String.eqb _ _);
      match goal with |- context [try_except (cmds_setAttr _ ?v ?ty) _ (mkSt ?w0 _)] =>
        destruct (cmds_setAttr_written w0 s name v ty) as (w' & E & Hattrs & Hreg & Hcount & Hnodes)
      end; exists w'; repeat split; assumption. }
  unfold effective_plug in Hp. unfold _onSetAttr. rewrite bind_get_self. cbv beta zeta.
  replace (negb force && negb (_isConnected s)) with false
    by (destruct force, (_isConnected s); simpl in *; congruence).
  destruct (dict_truthy (_sceneAttributeData s)).
  - destruct (truthy (dict_get _ _ _)) eqn:Ht; [|discriminate].
    injection Hp as Hp. cbn [negb].
    unfold mbind at 1, M_bind at 1, lift. rewrite (truthy_dict_item _ _ Ht), Hp.
    exact Hw.
  - injection Hp as <-. exact Hw.
Qed.

Lemma written_twice (name : string) (v : pyval) (ty : option string) (w w' : World) :
  attrs w' = written name v ty w -> written name v ty w' = written name v ty w.
Proof.
  intros H. unfold written at 1. rewrite H. unfold written.
  destruct (attrs w !! name) as [a|] eqn:Ha; [|rewrite Ha; reflexivity].
  destruct (host_accepts a ty v) eqn:Hacc.
  - rewrite lookup_insert_eq.
    change (host_accepts _ ty v) with (host_accepts a ty v). rewrite Hacc.
    apply insert_insert_eq.
  - rewrite Ha, Hacc. reflexivity.
Qed.

Lemma written_keeps (name k : string) (v : pyval) (ty : option string) (w : World) :
  is_Some (attrs w !! k) -> is_Some (written name v ty w !! k).
Proof.
  intros H. unfold written. destruct (attrs w !! name) as [a|] eqn:Ha; [|exact H].
  destruct (host_accepts a ty v); [|exact H].
  destruct (decide (name = k)) as [->|Hne].
  - rewrite lookup_insert_eq. eexists. reflexivity.
  - rewrite lookup_insert_ne by exact Hne. exact H.
Qed.

Lemma slot__widgetUpdated_written (w : World) (s : Widget) (name : string) :
  cls s = BoolAttributeWidget ->
  _isConnected s = true ->
  effective_plug s = Some (VStr name) ->
  is_Some (attrs w !! _plugString s) ->
  exists w',
    slot _widgetUpdated (mkSt w s)
    = (Return (), mkSt w' (set_value (VBool (_checkBox s)) s)) /\
    attrs w' = written name (VBool (_checkBox s)) (setAttr_type s) w /\
    registry w' = registry w.
Proof.
  intros Hb Hc Hp Hown.
  unfold slot, try_except, _widgetUpdated. rewrite bind_get_self. cbv beta zeta.
  rewrite Hb. unfold mbind at 1, M_bind at 1, modify_self. cbn [self world].
  destruct (_onSetAttr_written false w (set_value (VBool (_checkBox s)) s) name Hc Hp Hown)
    as (w2 & E2 & Hattrs2 & Hreg2 & _).
  unfold mbind, M_bind. rewrite E2. unfold valueChanged_emit, modify_world. simpl.
  eexists. split; [reflexivity|]. split; assumption.
Qed.

Lemma QCheckBox_setChecked_bool (b : bool) (w : World) (s : Widget) :
  QCheckBox_setChecked (VBool b) (mkSt w s)
  = (Return (negb (Bool.eqb (_checkBox s) b)), mkSt w (set_checkBox b s)).
Proof. reflexivity. Qed.



(** X8.  [_onSetAttr] reads the widget's own plug before it writes, outside
    the [try] that guards the write.  So when a connected widget's own plug
    is gone from the scene, assigning [value] raises [ValueError]: the value
    is cached by then, but nothing is written, the display is not refreshed
    and [valueChanged] is not emitted.  This is so even when an override
    bundle redirects the write to a plug that exists. *)
Theorem value_setter_plug_gone (w : World) (s : Widget) (p v : pyval) :
  _isConnected s = true ->
  effective_plug s = Some p ->
  attrs w !! _plugString s = None ->
  value_setter v (mkSt w s)
  = (Raise ValueError, mkSt (logged (VStr (_plugString s)) w) (set_value v s)).
Proof.
  intros Hc Hp Hown. unfold value_setter.
  unfold mbind at 1, M_bind at 1, modify_self. cbn [self world].
  assert (E : _onSetAttr false (mkSt w (set_value v s))
              = (Raise ValueError, mkSt (logged (VStr (_plugString s)) w) (set_value v s))).
  { assert (Hread : forall k : pyval -> M unit,
              (cmds_getAttr (VStr (_plugString s)) ≫= k) (mkSt w (set_value v s))
              = (Raise ValueError,
                 mkSt (logged (VStr (_plugString s)) w) (set_value v s))).
    { intros k. unfold cmds_getAttr, plug_name. munfold. simpl. rewrite Hown.
      reflexivity. }
    unfold effective_plug in Hp. unfold _onSetAttr. rewrite bind_get_self.
    cbv beta zeta. cbn [_isConnected _sceneAttributeData _plugString set_value].
    rewrite Hc. cbn [negb andb].
    destruct (dict_truthy (_sceneAttributeData s)).
    - destruct (truthy (dict_get _ _ _)) eqn:Ht; [|discriminate]. cbn [negb].
      unfold mbind at 1, M_bind at 1, lift. rewrite (truthy_dict_item _ _ Ht).
      apply Hread.
    - apply Hread. }
  unfold mbind, M_bind. rewrite E. reflexivity.
Qed.

Lemma value_setter_plug_gone_witness :
  let w := set_attrs (delete "ball.count" (attrs (world count_widget_live)))
             (world count_widget_live) in
  let s := self count_widget_live in
  value_setter (VInt 5) (mkSt w s)
  = (Raise ValueError, mkSt (logged (VStr (_plugString s)) w) (set_value (VInt 5) s)).
Proof.
  intros w s.
  apply (value_setter_plug_gone w s (VStr "ball.count") (VInt 5));
    vm_compute; reflexivity.
Defined.

(** ** Disconnecting *)


Lemma _onGetAttr_plug_gone (w : World) (s : Widget) (name : string) :
  _isConnected s = true ->
  effective_plug s = Some (VStr name) ->
  attrs w !! name = None ->
  _onGetAttr (mkSt w s) = (Raise ValueError, mkSt (logged (VStr name) w) s).
Proof.
  intros Hc Hp Hgone.
  assert (Hread : forall k : pyval -> M pyval,
            (cmds_getAttr (VStr name) ≫= k) (mkSt w s)
            = (Raise ValueError, mkSt (logged (VStr name) w) s)).
  { intros k. unfold cmds_getAttr, plug_name. munfold. simpl. rewrite Hgone.
    reflexivity. }
  unfold effective_plug in Hp. unfold _onGetAttr. rewrite bind_get_self.
  cbv beta zeta. rewrite Hc. cbn [negb].
  destruct (dict_truthy (_sceneAttributeData s)).
  - destruct (truthy (dict_get _ _ _)) eqn:Ht; [|discriminate]. cbn [negb].
    injection Hp as Hp.
    unfold mbind at 1, M_bind at 1, lift. rewrite (truthy_dict_item _ _ Ht), Hp.
    apply Hread.
  - injection Hp as <-. apply Hread.
Qed.

(** X10.  A connected widget whose plug -- its own, or the target of its
    override bundle -- is gone from the scene cannot be disconnected:
    [disConnectFromNode] raises the [ValueError] of its closing read and
    leaves the widget as it was, connected. *)
Theorem disConnectFromNode_plug_gone (w : World) (s : Widget) (name : string) :
  _isConnected s = true ->
  effective_plug s = Some (VStr name) ->
  attrs w !! name = None ->
  disConnectFromNode (mkSt w s) = (Raise ValueError, mkSt (logged (VStr name) w) s).
Proof.
  intros Hc Hp Hgone. unfold disConnectFromNode. rewrite bind_get_self. cbv beta.
  rewrite Hc. cbn [negb]. unfold mbind, M_bind.
  rewrite (_onGetAttr_plug_gone w s name Hc Hp Hgone). reflexivity.
Qed.

Lemma disConnectFromNode_plug_gone_witness :
  let w := set_attrs (delete "ball.count" (attrs (world count_widget_live)))
             (world count_widget_live) in
  let s := self count_widget_live in
  disConnectFromNode (mkSt w s)
  = (Raise ValueError, mkSt (logged (VStr "ball.count") w) s).
Proof.
  intros w s.
  apply (disConnectFromNode_plug_gone w s "ball.count"); vm_compute; reflexivity.
Defined.

(** ** Connecting *)

Lemma released_attrs (l : list MCallbackIdWrapper) (w : World) :
  attrs (released l w) = attrs w /\ nodes (released l w) = nodes w /\
  next_callback (released l w) = next_callback w /\
  setAttr_log (released l w) = setAttr_log w /\
  getAttr_log (released l w) = getAttr_log w /\
  deferred (released l w) = deferred w /\
  valueChanged_count (released l w) = valueChanged_count w.
Proof.
  unfold released. revert w. induction l as [|c l IH]; intros w; [repeat split|].
  simpl. destruct (IH (set_callbacks (filter (fun i => i ≠ callbackId c) (callbacks w)) w))
    as (-> & -> & -> & -> & -> & -> & ->).
  repeat split.
Qed.

(** X11.  [connectToNode], with either value of [pull], on a widget that is
    not connected and has nothing to bind to -- its override bundle names no
    target, or the plug it resolves to is not in the scene, or its type is
    not one the class supports -- returns and leaves the widget not
    connected: nothing is read or written and no callback is registered.
    All it does is what it does first on every call: it empties the pending
    markers and the wrapper list, which deletes the wrappers. *)
Theorem connectToNode_nothing_to_bind (splitPlugString : pyval -> outcome (list pyval))
    (pull : bool) (w : World) (s : Widget) :
  _isConnected s = false ->
  match effective_plug s with
  | None => True
  | Some (VStr name) =>
      attrs w !! name = None \/
      str_in (_attributeType s) (VALID_ATTR_TYPES (cls s)) = false
  | Some _ => False
  end ->
  connectToNode splitPlugString pull (mkSt w s)
  = (Return (),
     mkSt (released (_nodeCallbacks s) w)
          (set_deferredUpdateRequest [] (set_nodeCallbacks [] s))).
Proof.
  intros Hc Hp. unfold effective_plug in Hp. unfold connectToNode. munfold. cbn [self].
  rewrite for_each_del, Hc. cbv zeta.
  destruct (dict_truthy (_sceneAttributeData s)).
  - destruct (truthy (dict_get _ _ _)) eqn:Ht; [|reflexivity].
    rewrite (truthy_dict_item _ _ Ht). cbn [negb].
    destruct (dict_get _ _ _) as [| | | |name|]; try contradiction.
    unfold cmds_objExists, plug_name. munfold. cbn [self world].
    destruct (released_attrs (_nodeCallbacks s) w) as (-> & _).
    destruct Hp as [-> | ->]; [reflexivity|].
    destruct (bool_decide (is_Some _)); reflexivity.
  - unfold cmds_objExists, plug_name. munfold. cbn [self world].
    destruct (released_attrs (_nodeCallbacks s) w) as (-> & _).
    destruct Hp as [-> | ->]; [reflexivity|].
    destruct (bool_decide (is_Some _)); reflexivity.
Qed.

Lemma connectToNode_nothing_to_bind_witness :
  let w := set_attrs (delete "ball.count" (attrs (world count_widget))) (world count_widget) in
  let s := self count_widget in
  connectToNode splitPlugString_at_dot true (mkSt w s)
  = (Return (),
     mkSt (released (_nodeCallbacks s) w)
          (set_deferredUpdateRequest [] (set_nodeCallbacks [] s))).
Proof.
  intros w s. apply (connectToNode_nothing_to_bind splitPlugString_at_dot true w s).
  - vm_compute. reflexivity.
  - vm_compute. left. reflexivity.
Defined.

(** X12.  [connectToNode()] -- [setLiveMode(True)] calls it so -- pushes and
    does not pull.  For a widget that is not connected, whose resolved plug
    and own plug exist, whose type the class supports and whose node the
    host knows, the call returns with the widget connected and its cached
    value as it was; the host was asked once to write that value to the
    resolved plug, so the scene now holds it there if the host accepted the
    write; and exactly one callback was registered, whose wrapper is the
    only one the widget holds. *)
Theorem connectToNode_pushes (splitPlugString : pyval -> outcome (list pyval))
    (w : World) (s : Widget) (name n : string) :
  _isConnected s = false ->
  effective_plug s = Some (VStr name) ->
  is_Some (attrs w !! name) ->
  is_Some (attrs w !! _plugString s) ->
  str_in (_attributeType s) (VALID_ATTR_TYPES (cls s)) = true ->
  getNodeFromPlugString splitPlugString (VStr name) = VStr n ->
  n ∈ nodes w ->
  exists w',
    connectToNode splitPlugString false (mkSt w s)
    = (Return (),
       mkSt w' (set_isConnected true
                  (set_nodeCallbacks [mkWrapper (next_callback w)]
                     (set_deferredUpdateRequest [] s)))) /\
    attrs w' = written name (_value s) (setAttr_type s) w /\
    callbacks w' = callbacks (released (_nodeCallbacks s) w) ++ [next_callback w] /\
    next_callback w' = S (next_callback w) /\
    deferred w' = deferred w /\
    valueChanged_count w' = valueChanged_count w.
Proof.
  intros Hc Hp Hplug Hown Hvalid Hnode Hin.
  destruct (released_attrs (_nodeCallbacks s) w) as (Ra & Rn & Rc & _ & _ & Rd & Rv).
  set (w0 := released (_nodeCallbacks s) w) in *.
  set (s0 := set_deferredUpdateRequest [] (set_nodeCallbacks [] s)).
  assert (Hown0 : is_Some (attrs w0 !! _plugString s0)) by (rewrite Ra; exact Hown).
  destruct (_onSetAttr_written true w0 s0 name eq_refl Hp Hown0)
    as (w1 & E1 & Hattrs & Hreg & Hcount & Hnodes).
  unfold effective_plug in Hp. unfold connectToNode. munfold. cbn [self].
  rewrite for_each_del, Hc. cbv zeta. fold w0. cbn [self world]. fold s0.
  destruct (dict_truthy (_sceneAttributeData s));
    [destruct (truthy (dict_get _ _ _)) eqn:Ht; [|discriminate];
     injection Hp as Hp; rewrite (truthy_dict_item _ _ Ht), Hp; cbn [negb]
    |injection Hp as Hp; rewrite Hp].
  all: unfold cmds_objExists, plug_name; munfold; cbn [self world].
  all: rewrite Ra, (bool_decide_eq_true_2 _ Hplug); cbn [negb].
  all: rewrite Hvalid; cbn [negb]; rewrite E1, Hnode.
  all: unfold _getDependNode, addNodeDirtyPlugCallback; munfold; cbn [self world].
  all: rewrite Hnodes, Rn, (bool_decide_eq_true_2 _ Hin).
  all: unfold registry in Hreg; injection Hreg as Hcb Hnext Hdef.
  all: cbn [self world]; rewrite Hnext, Rc.
  all: eexists; split; [reflexivity|].
  all: cbn; rewrite Hcb, Hdef, Hcount; repeat split; try assumption.
  all: rewrite Hattrs; unfold written; rewrite Ra; reflexivity.
Qed.

Lemma connectToNode_pushes_witness :
  let w := count_set_to (VInt 7) (world count_widget) in
  let s := self count_widget in
  exists w',
    connectToNode splitPlugString_at_dot false (mkSt w s)
    = (Return (),
       mkSt w' (set_isConnected true
                  (set_nodeCallbacks [mkWrapper (next_callback w)]
                     (set_deferredUpdateRequest [] s)))) /\
    attrs w' = written "ball.count" (_value s) (setAttr_type s) w /\
    callbacks w' = callbacks (released (_nodeCallbacks s) w) ++ [next_callback w] /\
    next_callback w' = S (next_callback w) /\
    deferred w' = deferred w /\
    valueChanged_count w' = valueChanged_count w.
Proof.
  intros w s.
  apply (connectToNode_pushes splitPlugString_at_dot w s "ball.count" "ball");
    try (vm_compute; reflexivity);
    try (vm_compute; eexists; reflexivity).
Defined.

(** ** Notifications *)

Lemma host_idle_once (w : World) (s : Widget) :
  deferred w = 1%nat ->
  host_idle (mkSt w s)
  = slot _processDeferredUpdateRequest (mkSt (set_deferred 0 w) s).
Proof.
  intros Hd. unfold host_idle. rewrite bind_get_world.
  unfold mbind at 1, M_bind at 1, modify_world. cbn [self world]. rewrite Hd.
  cbn [replicate for_each]. unfold mbind, M_bind, mret, M_ret.
  destruct (slot _ _) as [[[]|e] st]; reflexivity.
Qed.

(** X13.  Dirty notifications that reach a widget which is not connected do
    no harm: after any number of them and the idle callback they schedule,
    a widget that had no pending marker, and the host, which had no
    callback scheduled, are exactly as they were -- nothing was read and
    nothing changed in the widget. *)
Theorem offline_notifications_leave_no_trace (n : nat) (w : World) (s : Widget) :
  _isConnected s = false ->
  _deferredUpdateRequest s = [] ->
  deferred w = 0%nat ->
  exec host_idle (exec (host_dirty n) (mkSt w s)) = mkSt w s.
Proof.
  intros Hc Hl Hd. unfold exec. destruct n as [|n].
  - unfold host_dirty. cbn [replicate for_each]. unfold mret, M_ret. cbn [snd].
    unfold host_idle. rewrite bind_get_world.
    unfold mbind, M_bind, modify_world. cbn [self world]. rewrite Hd.
    destruct w. simpl in *. subst. reflexivity.
  - rewrite (host_dirty_idle (S n) w s) by (lia || assumption). cbn [snd].
    rewrite Hd. rewrite host_idle_once by reflexivity.
    unfold slot, try_except, _processDeferredUpdateRequest.
    rewrite bind_get_self. cbv beta. cbn [_deferredUpdateRequest
      set_deferredUpdateRequest replicate].
    unfold mbind at 1, M_bind at 1. unfold mbind at 1, M_bind at 1.
    rewrite _onGetAttr_disconnected by exact Hc.
    unfold mret, M_ret, modify_self. cbn [snd self world].
    destruct w, s. simpl in *. subst. reflexivity.
Qed.

Lemma offline_notifications_leave_no_trace_witness :
  exec host_idle (exec (host_dirty 3) (mkSt (world count_widget) (self count_widget)))
  = mkSt (world count_widget) (self count_widget).
Proof.
  apply (offline_notifications_leave_no_trace 3 (world count_widget) (self count_widget));
    vm_compute; reflexivity.
Defined.

(** X14.  The idle callback clears the pending markers only after its read.
    So when the read raises -- the plug of a connected widget is gone from
    the scene -- the markers stay, and since a notification schedules the
    callback only when it adds the first marker, no later notification
    schedules one: whatever the scene has become, the widget is not
    refreshed again (until [connectToNode] empties the markers). *)
Theorem failed_refresh_ends_refreshing (n m : nat) (w w' : World) (s : Widget)
    (name : string) :
  (1 <= n)%nat ->
  _isConnected s = true ->
  _deferredUpdateRequest s = [] ->
  deferred w = 0%nat ->
  effective_plug s = Some (VStr name) ->
  attrs w !! name = None ->
  deferred w' = 0%nat ->
  let st2 := exec host_idle (exec (host_dirty n) (mkSt w s)) in
  let st3 := exec host_idle (exec (host_dirty m) (mkSt w' (self st2))) in
  (self st2 = set_deferredUpdateRequest (replicate n true) s /\
   getAttr_log (world st2) = getAttr_log w ++ [VStr name] /\
   deferred (world st2) = 0%nat) /\
  (getAttr_log (world st3) = getAttr_log w' /\
   deferred (world st3) = 0%nat /\
   value (self st3) = value s).
Proof.
  intros Hn Hc Hl Hd Hp Hgone Hd' st2 st3.
  assert (E2 : st2 = mkSt (logged (VStr name) (set_deferred 0 (set_deferred 1 w)))
                          (set_deferredUpdateRequest (replicate n true) s)).
  { subst st2. unfold exec. rewrite (host_dirty_idle n w s Hn Hl). cbn [snd].
    rewrite Hd. rewrite host_idle_once by reflexivity.
    unfold slot, try_except, _processDeferredUpdateRequest.
    rewrite bind_get_self. cbv beta.
    destruct n as [|n]; [lia|].
    cbn [_deferredUpdateRequest set_deferredUpdateRequest replicate].
    unfold mbind at 1, M_bind at 1. unfold mbind at 1, M_bind at 1.
    rewrite (_onGetAttr_plug_gone _ _ name) by assumption. reflexivity. }
  subst st3. rewrite E2. cbn [self world]. split; [repeat split|].
  unfold exec.
  rewrite host_dirty_pending
    by (destruct n as [|n]; [lia|]; cbn; discriminate).
  cbn [snd]. unfold host_idle. rewrite bind_get_world.
  unfold mbind, M_bind, modify_world. cbn [self world]. rewrite Hd'.
  cbn [replicate for_each]. unfold mret, M_ret. cbn [snd self world].
  destruct m; repeat split.
Qed.

Lemma failed_refresh_ends_refreshing_witness :
  let w := set_attrs (delete "ball.count" (attrs (world count_widget_live)))
             (world count_widget_live) in
  let w' := count_set_to (VInt 9) (world count_widget_live) in
  let s := self count_widget_live in
  let st2 := exec host_idle (exec (host_dirty 2) (mkSt w s)) in
  let st3 := exec host_idle (exec (host_dirty 5) (mkSt w' (self st2))) in
  (self st2 = set_deferredUpdateRequest (replicate 2 true) s /\
   getAttr_log (world st2) = getAttr_log w ++ [VStr "ball.count"] /\
   deferred (world st2) = 0%nat) /\
  (getAttr_log (world st3) = getAttr_log w' /\
   deferred (world st3) = 0%nat /\
   value (self st3) = value s).
Proof.
  intros w w' s.
  apply (failed_refresh_ends_refreshing 2 5 w w' s "ball.count");
    try (vm_compute; reflexivity).
  lia.
Defined.

(** ** The two controls of the integer widget *)

Lemma _widgetUpdated_integer (st : St) :
  cls (self st) = IntegerNumericAttributeWidget ->
  self (snd (_widgetUpdated st)) = self st.
Proof.
  intros Hc. destruct st as [w s]. cbn [self] in Hc.
  unfold _widgetUpdated. rewrite bind_get_self. cbv beta. rewrite Hc.
  exact (keeps_bind (_onSetAttr false) (fun _ => valueChanged_emit)
           (keeps__onSetAttr false) (fun _ => keeps_valueChanged_emit) (mkSt w s)).
Qed.

Lemma slot__sliderUpdated_integer (z : Z) (w : World) (s : Widget) :
  cls s = IntegerNumericAttributeWidget ->
  self (snd (slot (_sliderUpdated (VInt z)) (mkSt w s)))
  = set_value (VInt z) (set_spinBox (VInt z) s).
Proof.
  intros Hc.
  unfold slot, try_except, _sliderUpdated, _silentSpinBoxUpdate, QSpinBox_setValue.
  munfold. cbn [self world as_num]. rewrite Hc. cbn [self world set_spinBox cls].
  rewrite Hc. cbn [self world].
  match goal with |- context [_widgetUpdated ?st] =>
    pose proof (_widgetUpdated_integer st Hc) as K;
    destruct (_widgetUpdated st) as [[[]|e] st'] end; exact K.
Qed.

Lemma slot__spinBoxUpdated_integer (z : Z) (w : World) (s : Widget) :
  cls s = IntegerNumericAttributeWidget ->
  self (snd (slot (_spinBoxUpdated (VInt z)) (mkSt w s)))
  = set_value (VInt z) (set_slider (VInt z) s).
Proof.
  intros Hc.
  unfold slot, try_except, _spinBoxUpdated, _silentSliderUpdate, QSlider_setValue.
  munfold. cbn [self world as_num]. rewrite Hc. cbn [self world set_slider cls].
  rewrite Hc. cbn [self world].
  match goal with |- context [_widgetUpdated ?st] =>
    pose proof (_widgetUpdated_integer st Hc) as K;
    destruct (_widgetUpdated st) as [[[]|e] st'] end; exact K.
Qed.



(** ** Resetting *)



(** ** A bundle that names no target *)

Lemma _onSetAttr_unlinked (force : bool) (st : St) :
  unlinked st -> _onSetAttr force st = (Return (), st).
Proof.
  unfold unlinked, effective_plug. destruct st as [w s]. cbn [self]. intros H.
  unfold _onSetAttr. rewrite bind_get_self. cbv beta zeta.
  destruct (negb force && negb (_isConnected s)); [reflexivity|].
  destruct (dict_truthy (_sceneAttributeData s)); [|discriminate].
  destruct (truthy (dict_get _ _ _)); [discriminate|]. reflexivity.
Qed.

Lemma _onGetAttr_unlinked (st : St) :
  unlinked st -> _onGetAttr st = (Return VNone, st).
Proof.
  unfold unlinked, effective_plug. destruct st as [w s]. cbn [self]. intros H.
  unfold _onGetAttr. rewrite bind_get_self. cbv beta zeta.
  destruct (negb (_isConnected s)); [reflexivity|].
  destruct (dict_truthy (_sceneAttributeData s)); [|discriminate].
  destruct (truthy (dict_get _ _ _)); [discriminate|]. reflexivity.
Qed.

Lemma unlinked_respects (w : World) (s s' : Widget) :
  bookkeeping s' = bookkeeping s ->
  unlinked (mkSt w s) -> unlinked (mkSt w s') /\ backstage (mkSt w s') = backstage (mkSt w s).
Proof.
  unfold unlinked. cbn [self]. intros Hb H. split; [|reflexivity].
  change (effective_plug s') with (effective_plug (bookkeeping s')).
  rewrite Hb. exact H.
Qed.

Lemma unlinked_emit : steady unlinked backstage valueChanged_emit.
Proof. unfold valueChanged_emit. steady_by same. Qed.

Lemma unlinked__onSetAttr : steady unlinked backstage (_onSetAttr false).
Proof.
  intros st H. rewrite (_onSetAttr_unlinked false st H). split; [exact H | reflexivity].
Qed.

Lemma unlinked_value_setter (v : pyval) : steady unlinked backstage (value_setter v).
Proof.
  exact (steady_value_setter unlinked backstage unlinked_respects unlinked_emit
           unlinked__onSetAttr v).
Qed.

Lemma unlinked__widgetUpdated : steady unlinked backstage _widgetUpdated.
Proof.
  exact (steady__widgetUpdated unlinked backstage unlinked_respects unlinked_emit
           unlinked__onSetAttr).
Qed.

Lemma unlinked_QComboBox_removeItem (i : Z) :
  steady unlinked backstage (QComboBox_removeItem i).
Proof. exact (steady_QComboBox_removeItem unlinked backstage unlinked_respects i). Qed.

Lemma unlinked_QComboBox_addItems (l : pyval) :
  steady unlinked backstage (QComboBox_addItems l).
Proof. exact (steady_QComboBox_addItems unlinked backstage unlinked_respects l). Qed.

Lemma unlinked_QComboBox_setCurrentIndex (v : pyval) :
  steady unlinked backstage (QComboBox_setCurrentIndex v).
Proof. exact (steady_QComboBox_setCurrentIndex unlinked backstage unlinked_respects v). Qed.

#[local] Hint Resolve unlinked_value_setter unlinked__widgetUpdated
  unlinked_QComboBox_removeItem unlinked_QComboBox_addItems
  unlinked_QComboBox_setCurrentIndex : steady.

Lemma unlinked_enumValues_setter (v : pyval) :
  steady unlinked backstage (enumValues_setter v).
Proof. unfold enumValues_setter. steady_by same. Qed.

#[local] Hint Resolve unlinked_enumValues_setter : steady.

Lemma unlinked_setattr (name : string) (v : pyval) :
  steady unlinked backstage (setattr name v).
Proof. unfold setattr. steady_by same. Qed.

#[local] Hint Resolve unlinked_setattr : steady.

(** X17.  A pushed bundle that is not empty and names no override target --
    such as the bundle stolen from a widget that had none -- cuts the
    widget off from the scene, connected or not.  [pushInData] itself
    neither reads nor writes the scene, whether it returns or raises: the
    pushed value reaches the cache and the display only.  Afterwards the
    widget resolves to no plug, and [_onGetAttr] and [_onSetAttr] return
    without touching the host. *)
Theorem pushed_bundle_unlinks (data : pydict) (w : World) (s : Widget) :
  dict_truthy data = true ->
  truthy (dict_get data K_OVR_PLUG_OVERRIDE_DATA_KEYS VNone) = false ->
  let st' := exec (pushInData data) (mkSt w s) in
  behind_the_signal (world st') = behind_the_signal w /\
  effective_plug (self st') = None /\
  (forall (w2 : World) (force : bool),
     _onGetAttr (mkSt w2 (self st')) = (Return VNone, mkSt w2 (self st')) /\
     _onSetAttr force (mkSt w2 (self st')) = (Return (), mkSt w2 (self st'))).
Proof.
  intros Hd Ht. cbv zeta.
  assert (K : unlinked (exec (pushInData data) (mkSt w s)) /\
              backstage (exec (pushInData data) (mkSt w s)) = behind_the_signal w).
  { unfold exec, pushInData. rewrite Hd. cbn [negb].
    unfold mbind at 1, M_bind at 1, modify_self at 1. cbn [self world].
    match goal with |- context [?m (mkSt w (set_sceneAttributeData data s))] =>
      assert (S : steady unlinked backstage m) end.
    { steady_by same. }
    apply S. unfold unlinked, effective_plug. cbn [self _sceneAttributeData
      set_sceneAttributeData]. rewrite Hd, Ht. reflexivity. }
  destruct K as [K1 K2]. split; [exact K2|]. split; [exact K1|].
  intros w2 force. split.
  - apply _onGetAttr_unlinked. exact K1.
  - apply _onSetAttr_unlinked. exact K1.
Qed.

Lemma pushed_bundle_unlinks_witness :
  let data : pydict := <["value" := VInt 4]> ∅ in
  let w := world count_widget_live in
  let st' := exec (pushInData data) (mkSt w (self count_widget_live)) in
  behind_the_signal (world st') = behind_the_signal w /\
  effective_plug (self st') = None /\
  (forall (w2 : World) (force : bool),
     _onGetAttr (mkSt w2 (self st')) = (Return VNone, mkSt w2 (self st')) /\
     _onSetAttr force (mkSt w2 (self st')) = (Return (), mkSt w2 (self st'))).
Proof.
  intros data w.
  apply (pushed_bundle_unlinks data w (self count_widget_live)); vm_compute; reflexivity.
Defined.

(** ** The captured default *)

Lemma _getAttributeInformation_value (w : World) (s : Widget) (a0 : Attr) :
  cls s <> BaseAttributeWidget ->
  _plugString s = _node s +:+ "." +:+ _attribute s ->
  attrs w !! _plugString s = Some a0 ->
  exists d w1,
    _getAttributeInformation (mkSt w s) = (Return d, mkSt w1 s) /\
    d !! "value" = Some (captured (cls s) (a_value a0)).
Proof.
  intros Hb Hp Ha.
  unfold _getAttributeInformation, cmds_objExists, cmds_getAttr, cmds_attributeQuery,
    plug_name.
  munfold. cbn [self world]. rewrite <- Hp.
  destruct (cls s); try contradiction; cbn [self world set_getAttr_log attrs captured];
    rewrite Ha; rewrite bool_decide_eq_true_2 by (eexists; reflexivity);
    repeat (progress (cbn [negb self world set_getAttr_log attrs]; rewrite ?Ha)).
  all: eexists _, _; split; [reflexivity|].
  all: try (apply lookup_insert_eq).
  all: destruct (a_softRange a0), (a_maximum a0), (a_minimum a0);
    repeat (rewrite lookup_insert_ne by discriminate);
    destruct (truthy (a_value a0)); try (apply lookup_insert_eq); reflexivity.
Qed.

Lemma defaults_respects (w : World) (s s' : Widget) :
  bookkeeping s' = bookkeeping s ->
  always (mkSt w s) ->
  always (mkSt w s') /\ defaults_of (mkSt w s') = defaults_of (mkSt w s).
Proof.
  intros Hb _. split; [exact Logic.I|]. unfold defaults_of. cbn [self].
  change (_attributeDefaults s') with (_attributeDefaults (bookkeeping s')).
  change (_plugString s') with (_plugString (bookkeeping s')).
  rewrite Hb. reflexivity.
Qed.

Lemma defaults_emit : steady always defaults_of valueChanged_emit.
Proof. unfold valueChanged_emit. steady_by same. Qed.

Lemma defaults__onSetAttr : steady always defaults_of (_onSetAttr false).
Proof.
  intros st _. split; [exact Logic.I|]. unfold defaults_of.
  rewrite (keeps__onSetAttr false st). reflexivity.
Qed.

Lemma defaults_QLineEdit_setText (v : pyval) :
  steady always defaults_of (QLineEdit_setText v).
Proof. exact (steady_QLineEdit_setText always defaults_of defaults_respects v). Qed.

Lemma defaults_QSpinBox_setValue (v : pyval) :
  steady always defaults_of (QSpinBox_setValue v).
Proof. exact (steady_QSpinBox_setValue always defaults_of defaults_respects v). Qed.

Lemma defaults_QSlider_setValue (v : pyval) :
  steady always defaults_of (QSlider_setValue v).
Proof. exact (steady_QSlider_setValue always defaults_of defaults_respects v). Qed.

Lemma defaults_QComboBox_addItems (v : pyval) :
  steady always defaults_of (QComboBox_addItems v).
Proof. exact (steady_QComboBox_addItems always defaults_of defaults_respects v). Qed.

Lemma defaults_QComboBox_setCurrentIndex (v : pyval) :
  steady always defaults_of (QComboBox_setCurrentIndex v).
Proof.
  exact (steady_QComboBox_setCurrentIndex always defaults_of defaults_respects v).
Qed.

Lemma defaults__setupSocketConnections :
  steady always defaults_of _setupSocketConnections.
Proof.
  exact (steady__setupSocketConnections always defaults_of defaults_respects
           defaults_emit defaults__onSetAttr).
Qed.

#[local] Hint Resolve defaults_QLineEdit_setText defaults_QSpinBox_setValue
  defaults_QSlider_setValue defaults_QComboBox_addItems
  defaults_QComboBox_setCurrentIndex defaults__setupSocketConnections : steady.

Lemma defaults__buildWidget : steady always defaults_of _buildWidget.
Proof. unfold _buildWidget. steady_by same. Qed.

(** X18.  The default a widget captures is the value its plug holds when the
    widget is built -- for the numeric widgets the default of the class,
    [0.0] or [0], when that value is falsy -- and is in the widget's
    defaults under [value] when the constructor returns. *)
Theorem new_captures_default (c : WidgetClass)
    (node attribute attributeType : option string) (kwargs : pydict)
    (w w' : World) (s : Widget) :
  new c node attribute attributeType kwargs w = (Return s, w') ->
  exists a0,
    attrs w !! _plugString s = Some a0 /\
    _attributeDefaults s !! "value" = Some (captured c (a_value a0)).
Proof.
  unfold new. intros Hnew.
  destruct (__init__ _ _ _ _ _) as [[[]|e] st'] eqn:E; [|discriminate].
  injection Hnew as <- <-.
  unfold __init__ in E. rewrite bind_get_self in E. cbv beta zeta in E.
  destruct (absent node || absent attribute || absent attributeType);
    [unfold raise in E; discriminate|].
  unfold mbind at 1, M_bind at 1 in E.
  unfold cmds_getAttr_type, plug_name in E. munfold. cbn [world self] in E.
  destruct (attrs w !! _) as [a0|] eqn:Ha; [|discriminate].
  destruct (negb (String.eqb _ _)); [discriminate|].
  destruct (negb (str_in _ _)) eqn:Hvalid; [discriminate|].
  cbn [world self blank cls _value _customIncrement _lineEdit _comboBox _spinBox
       _slider _checkBox _enumValues] in E, Hvalid.
  assert (Hb : c <> BaseAttributeWidget).
  { intros ->. simpl in Hvalid. discriminate. }
  match type of E with context [_getAttributeInformation (mkSt w ?s0)] =>
    destruct (_getAttributeInformation_value w s0 a0 Hb eq_refl Ha)
      as (d & w1 & E0 & Hd); rewrite E0 in E end.
  cbn [self world cls] in E, Hd.
  unfold dict_item in E. rewrite Hd in E.
  match type of E with context [_buildWidget ?st2] =>
    destruct (defaults__buildWidget st2 Logic.I) as [_ F3] end.
  destruct (_buildWidget _) as [[[]|e] st3]; [|discriminate].
  cbn [snd] in F3.
  destruct (defaults__setupSocketConnections st3 Logic.I) as [_ F4].
  rewrite E in F4. cbn [snd] in F4. unfold defaults_of in F3, F4.
  cbn [self set_customIncrement set_value set_attributeDefaults _attributeDefaults
       _plugString] in F3.
  rewrite F3 in F4. injection F4 as -> ->. exists a0. split; assumption.
Qed.

Lemma new_captures_default_witness :
  exists a0,
    attrs (count_set_to (VInt 0) ball_scene)
      !! _plugString (self (built IntegerNumericAttributeWidget "ball" "count" "long"
                              (count_set_to (VInt 0) ball_scene)))
    = Some a0 /\
    _attributeDefaults (self (built IntegerNumericAttributeWidget "ball" "count" "long"
                                (count_set_to (VInt 0) ball_scene))) !! "value"
    = Some (captured IntegerNumericAttributeWidget (a_value a0)).
Proof.
  apply (new_captures_default IntegerNumericAttributeWidget (Some "ball")
           (Some "count") (Some "long") ∅ (count_set_to (VInt 0) ball_scene)
           (world (built IntegerNumericAttributeWidget "ball" "count" "long"
                    (count_set_to (VInt 0) ball_scene)))).
  vm_compute. reflexivity.
Defined.

(** ** The module on its own *)

Lemma steady_weaken {A B C : Type} (f : St -> B) (g : St -> C) (m : M A) :
  (forall st st', f st' = f st -> g st' = g st) ->
  steady always f m -> steady always g m.
Proof.
  intros Hfg Hm st H. destruct (Hm st H) as [_ F]. split; [exact Logic.I|].
  apply Hfg. exact F.
Qed.

Lemma subscription_of_frame (st st' : St) :
  frame st' = frame st -> subscription st' = subscription st.
Proof.
  unfold frame, subscription, registry. intros F.
  pose proof (f_equal (fun x => _isConnected (fst x)) F) as F1.
  pose proof (f_equal (fun x => _nodeCallbacks (fst x)) F) as F2.
  pose proof (f_equal (fun x => snd (fst (snd x))) F) as F3.
  cbn in F1, F2, F3. congruence.
Qed.

Lemma steady_bind_raises {A B C : Type} (I : St -> Prop) (f : St -> B)
    (m : M A) (k : A -> M C) :
  (forall st, exists e, m st = (Raise e, st)) -> steady I f (m ≫= k).
Proof.
  intros Hm st H. unfold mbind, M_bind. destruct (Hm st) as [e ->].
  split; [exact H | reflexivity].
Qed.

Lemma subscription_cmds_objExists (p : pyval) :
  steady always subscription (cmds_objExists p).
Proof. unfold cmds_objExists, plug_name. steady_by same. Qed.

Lemma subscription__onSetAttr (force : bool) :
  steady always subscription (_onSetAttr force).
Proof. exact (steady_weaken _ _ _ subscription_of_frame (frame__onSetAttr force)). Qed.

Lemma subscription__onGetAttr : steady always subscription _onGetAttr.
Proof. exact (steady_weaken _ _ _ subscription_of_frame frame__onGetAttr). Qed.

Lemma subscription_value_setter (v : pyval) :
  steady always subscription (value_setter v).
Proof.
  apply (steady_weaken _ _ _ subscription_of_frame).
  exact (steady_value_setter always frame frame_respects frame_emit
           (frame__onSetAttr false) v).
Qed.

#[local] Hint Resolve subscription_cmds_objExists subscription__onSetAttr
  subscription__onGetAttr subscription_value_setter : steady.

(** X19.  [getNodeFromPlugString] calls [splitPlugString], which the module
    does not define; run on its own, the call raises and
    [getNodeFromPlugString] returns [None] for every plug.  Then no call of
    [connectToNode] connects a widget or registers a callback: the host is
    asked for the dependency node of [None], which it refuses, before the
    callback is registered and the widget marked connected.  The widget is
    left connected or not as it was, with no wrapper. *)
Theorem connectToNode_alone_never_connects
    (splitPlugString : pyval -> outcome (list pyval)) (pull : bool) (st : St) :
  (forall p, exists e, splitPlugString p = Raise e) ->
  let st' := exec (connectToNode splitPlugString pull) st in
  _isConnected (self st') = _isConnected (self st) /\
  _nodeCallbacks (self st') = [] /\
  next_callback (world st') = next_callback (world st).
Proof.
  intros Hsplit. cbv zeta. destruct st as [w s]. unfold exec.
  remember (connectToNode splitPlugString pull (mkSt w s)) as r eqn:E.
  unfold connectToNode in E. rewrite bind_get_self in E. cbv beta zeta in E.
  unfold mbind at 1, M_bind at 1 in E. rewrite for_each_del in E.
  unfold mbind at 1, M_bind at 1, modify_self at 1 in E. cbn [self world] in E.
  unfold mbind at 1, M_bind at 1, modify_self at 1 in E. cbn [self world] in E.
  subst r.
  assert (Hnone : forall p st0, exists e,
            _getDependNode (getNodeFromPlugString splitPlugString p) st0 = (Raise e, st0)).
  { intros p st0. unfold getNodeFromPlugString. destruct (Hsplit p) as [e ->].
    eexists. reflexivity. }
  match goal with |- context [?m (mkSt ?w0 ?s0)] =>
    assert (S : steady always subscription m) end.
  { repeat first
      [ solve [auto with steady nocore]
      | lazymatch goal with
        | |- steady _ _ (mbind _ (_getDependNode _)) =>
            apply steady_bind_raises; intros; apply Hnone
        | |- steady _ _ (mbind _ _) => apply steady_bind
        | |- steady _ _ (try_except _ _) => apply steady_try_except
        | |- forall _, _ => intro
        end
      | case_match
      | progress cbv beta zeta ]. }
  match goal with |- context [?m (mkSt ?w0 ?s0)] =>
    destruct (S (mkSt w0 s0) Logic.I) as [_ F] end.
  pose proof (f_equal (fun x => fst (fst x)) F) as F1.
  pose proof (f_equal (fun x => snd (fst x)) F) as F2.
  pose proof (f_equal snd F) as F3.
  destruct (released_attrs (_nodeCallbacks s) w) as (_ & _ & Rc & _).
  split; [exact F1|]. split; [exact F2|].
  etransitivity; [exact F3 | exact Rc].
Qed.

Lemma connectToNode_alone_never_connects_witness :
  let alone : pyval -> outcome (list pyval) := fun _ => Raise NameError in
  let st' := exec (connectToNode alone false) count_widget in
  _isConnected (self st') = _isConnected (self count_widget) /\
  _nodeCallbacks (self st') = [] /\
  next_callback (world st') = next_callback (world count_widget).
Proof.
  intros alone.
  apply (connectToNode_alone_never_connects alone false count_widget).
  intros p. exists NameError. reflexivity.
Defined.

(** ** A control changes *)



(** ** The display after an assignment *)



(** ** The enumerated properties *)

Ltac find_in_list :=
  repeat first [ apply list_elem_of_here | apply list_elem_of_further ].

(** X22.  [_getAllProperties] lists, without repetition, exactly the names
    that are a [property] in the dictionary of the class or of one of its
    direct bases, do not start with an underscore and are not in
    [ALWAYS_SKIP_PROPERTIES]. *)
Theorem getAllProperties_sound (c : WidgetClass) (name : string) :
  NoDup (_getAllProperties c) /\
  (name ∈ _getAllProperties c <->
   startswith_underscore name = false /\
   str_in name ALWAYS_SKIP_PROPERTIES = false /\
   exists d, (d = c \/ d ∈ bases c) /\ (name, Property) ∈ vars d).
Proof.
  rewrite _getAllProperties_eq. split; [|split].
  - destruct c; apply (bool_decide_unpack _); vm_compute; exact Logic.I.
  - intros Hin.
    assert (Hcases : (name = "enumValues" /\ c = EnumAttributeWidget) \/
                     name ∈ base_props).
    { destruct c; try (right; exact Hin).
      apply elem_of_cons in Hin as [->|Hin]; [left; split; reflexivity | right; exact Hin]. }
    destruct Hcases as [[-> ->] | Hbase].
    + repeat split. exists EnumAttributeWidget. split; [left; reflexivity|].
      cbn [vars]. find_in_list.
    + unfold base_props in Hbase.
      repeat (apply elem_of_cons in Hbase as [->|Hbase]);
        [.. | apply elem_of_nil in Hbase; contradiction].
      all: repeat split; exists BaseAttributeWidget;
        (split; [destruct c; first [left; reflexivity | right; cbn [bases]; find_in_list]
                | cbn [vars]; find_in_list]).
  - intros (Hu & Hs & d & Hd & Hin).
    assert (Hd' : d ∈ c :: bases c).
    { destruct Hd as [->|Hd]; [apply list_elem_of_here | apply list_elem_of_further; exact Hd]. }
    clear Hd.
    destruct c; cbn [bases] in Hd';
      repeat (apply elem_of_cons in Hd' as [->|Hd']);
      try (apply elem_of_nil in Hd'; contradiction);
      cbn [vars] in Hin;
      repeat (apply elem_of_cons in Hin as [Hin|Hin];
              [simplify_eq; unfold base_props; find_in_list |]);
      apply elem_of_nil in Hin; contradiction.
Qed.
